(** * SNANA_FITS_to_pd: a shallow embedding of the FITS-to-CSV converter

    The development follows [src/SNANA_FITS_to_pd.py]: the Python string
    and path primitives the script relies on, the tables it loads, the
    reader [read_fits] (trimming, header pairing, segmentation, column
    renaming and band filtering) and the batch driver at the bottom of the
    script.  File-system effects are threaded through an explicit world
    state, and Python exceptions are values of type [exn]. *)

From Stdlib Require Import ZArith List String Ascii Bool Lia Floats.
From stdpp Require Import gmap strings list.

Open Scope string_scope.

(** ** Python strings and POSIX paths *)

Module PyStr.

(** [s[n:]] *)
Fixpoint drop (n : nat) (s : string) : string :=
  match n, s with
  | O, _ => s
  | S _, EmptyString => EmptyString
  | S n', String _ t => drop n' t
  end.

(** [sub in s]: substring test. *)
Fixpoint contains (sub s : string) : bool :=
  String.prefix sub s ||
  match s with
  | EmptyString => false
  | String _ t => contains sub t
  end.

(** Left-to-right scan of [str.replace] for a non-empty pattern: at each
    position either the pattern matches, and the scan resumes behind the
    match, or one character is copied.  [fuel] bounds the number of
    positions visited; [String.length s] always suffices. *)
Fixpoint replace_scan (fuel : nat) (old new s : string) : string :=
  match fuel with
  | O => s
  | S fuel' =>
      if String.prefix old s
      then new +:+ replace_scan fuel' old new (drop (String.length old) s)
      else match s with
           | EmptyString => EmptyString
           | String c t => String c (replace_scan fuel' old new t)
           end
  end.

(** With an empty pattern Python inserts [new] before every character
    and at the end. *)
Fixpoint intersperse (new s : string) : string :=
  match s with
  | EmptyString => new
  | String c t => new +:+ String c (intersperse new t)
  end.

(** [s.replace(old, new)] *)
Definition replace (old new s : string) : string :=
  match old with
  | EmptyString => intersperse new s
  | _ => replace_scan (String.length s) old new s
  end.

(** [c in s] for a single character. *)
Fixpoint has_char (c : ascii) (s : string) : bool :=
  match s with
  | EmptyString => false
  | String x t => Ascii.eqb x c || has_char c t
  end.

Definition slash : ascii := "/"%char.

Definition has_slash (s : string) : bool := has_char slash s.

(** [os.path.basename]: what follows the last slash. *)
Fixpoint basename (p : string) : string :=
  match p with
  | EmptyString => EmptyString
  | String c t =>
      if has_slash t then basename t
      else if Ascii.eqb c slash then t else p
  end.

Fixpoint ends_with_slash (s : string) : bool :=
  match s with
  | EmptyString => false
  | String c EmptyString => Ascii.eqb c slash
  | String _ t => ends_with_slash t
  end.

(** [os.path.join] on two components (POSIX flavour). *)
Definition join (a b : string) : string :=
  match b with
  | String c _ =>
      if Ascii.eqb c slash then b
      else if String.eqb a "" || ends_with_slash a then a +:+ b
      else a +:+ "/" +:+ b
  | EmptyString =>
      if String.eqb a "" || ends_with_slash a then a else a +:+ "/"
  end.

End PyStr.

Arguments PyStr.replace : simpl never.
Arguments PyStr.basename : simpl never.
Arguments PyStr.join : simpl never.

(** ** Tables

    Timestamps and fluxes are IEEE doubles; the separator rows of an SNANA
    photometry table carry the timestamp [-777.0]. *)

Definition sentinel : float := (-777)%float.

(** [mjd == -777.0] *)
Definition is_sentinel (mjd : float) : bool := PrimFloat.eqb mjd sentinel.

(** The columns of a PHOT table the reader uses.  [FLT] stands for the band
    column, which older SNANA versions call [FLT] and newer ones [BAND]. *)
Record raw_phot : Type := RawPhotRow
  { MJD : float; FLT : string; FLUXCAL : float; FLUXCALERR : float }.

(** The columns of a HEAD table the reader uses. *)
Record raw_head : Type := RawHeadRow
  { SNID : Z; SNTYPE : Z; PEAKMJD : float; REDSHIFT_FINAL : float;
    REDSHIFT_FINAL_ERR : float; MWEBV : float }.

(** A value of the [passband] column: the byte string read from the file,
    or the integer code that [replace] puts in its place. *)
Inductive cell : Type :=
| Bytes (b : string)
| Int (n : Z).

Module Phot.
Record row : Type := Row
  { object_id : Z; mjd : float; passband : cell; flux : float; flux_err : float }.
End Phot.

Module Head.
Record row : Type := Row
  { object_id : Z; true_target : Z; true_peakmjd : float; true_z : float;
    true_z_err : float; mwebv : float }.
End Head.

(** An astropy table as stored in a FITS file. *)
Inductive table : Type :=
| PhotTable (rows : list raw_phot)
| HeadTable (rows : list raw_head).

(** A pandas frame: rows in order, each under its index label. *)
Definition frame (A : Type) : Type := list (nat * A).

Inductive DataFrame : Type :=
| RawPhot (rows : frame raw_phot)
| RawHead (rows : frame raw_head)
| HeadDf (rows : frame Head.row)
| PhotDf (rows : frame Phot.row).

(** [RangeIndex(len(rows))] *)
Definition range_index {A : Type} (rows : list A) : frame A :=
  combine (seq 0 (length rows)) rows.

(** [Table.to_pandas] *)
Definition to_pandas (t : table) : DataFrame :=
  match t with
  | PhotTable rows => RawPhot (range_index rows)
  | HeadTable rows => RawHead (range_index rows)
  end.

Definition nrows (df : DataFrame) : nat :=
  match df with
  | RawPhot rows => length rows
  | RawHead rows => length rows
  | HeadDf rows => length rows
  | PhotDf rows => length rows
  end.

(** [df.empty] *)
Definition empty (df : DataFrame) : bool := Nat.eqb (nrows df) 0.

(** [df.drop(label)]: every row under that label goes. *)
Definition drop_label {A : Type} (label : nat) (df : frame A) : frame A :=
  List.filter (fun r => negb (Nat.eqb (fst r) label)) df.

(** ** Exceptions and results *)

Inductive exn : Type :=
| FileNotFoundError
| OSError
| AttributeError
| KeyError
| IndexError.

Inductive result (A : Type) : Type :=
| Ok (a : A)
| Raise (e : exn).
Arguments Ok {A} a.
Arguments Raise {A} e.

Definition rbind {A B : Type} (r : result A) (k : A -> result B) : result B :=
  match r with
  | Ok a => k a
  | Raise e => Raise e
  end.

(** [xs[i]] for a non-negative position. *)
Definition at_pos {A : Type} (xs : list A) (i : nat) : result A :=
  match xs !! i with
  | Some x => Ok x
  | None => Raise IndexError
  end.

(** [xs[-1]] *)
Definition at_last {A : Type} (xs : list A) : result A :=
  match last xs with
  | Some x => Ok x
  | None => Raise IndexError
  end.

(** ** The reader, pure part *)

(** Lines 31-34: the two end checks, the last row first.  [values[-1]] and
    [values[0]] index the timestamp array by position; [drop] removes by
    index label. *)
Definition trim_last (df : frame raw_phot) : result (frame raw_phot) :=
  rbind (at_last df) (fun r =>
  if is_sentinel (MJD (snd r)) then Ok (drop_label (fst r) df) else Ok df).

Definition trim_first (df : frame raw_phot) : result (frame raw_phot) :=
  rbind (at_pos df 0) (fun r =>
  if is_sentinel (MJD (snd r)) then Ok (drop_label (fst r) df) else Ok df).

Definition trim (df : frame raw_phot) : result (frame raw_phot) :=
  rbind (trim_last df) trim_first.

(** [astype(np.int32)]: two's-complement wrap-around. *)
Definition astype_int32 (z : Z) : Z :=
  ((z + 2 ^ 31) mod 2 ^ 32 - 2 ^ 31)%Z.

(** Line 39: the cast of the header's [SNID] column. *)
Definition astype_SNID (h : raw_head) : raw_head :=
  RawHeadRow (astype_int32 (SNID h)) (SNTYPE h) (PEAKMJD h) (REDSHIFT_FINAL h)
    (REDSHIFT_FINAL_ERR h) (MWEBV h).

(** [np.where(mjds == -777.0)[0]], positions counted from [i]. *)
Fixpoint where_sentinel (i : nat) (mjds : list float) : list nat :=
  match mjds with
  | [] => []
  | m :: rest =>
      if is_sentinel m then i :: where_sentinel (S i) rest
      else where_sentinel (S i) rest
  end.

(** [arr[start:stop] = v] on the part of [arr] that begins at position [i]. *)
Fixpoint slice_assign (i : nat) (arr : list Z) (start stop : nat) (v : Z) : list Z :=
  match arr with
  | [] => []
  | x :: rest =>
      (if Nat.leb start i && Nat.ltb i stop then v else x)
        :: slice_assign (S i) rest start stop v
  end.

(** Lines 47-50: the loop over [counter], on the remaining counters. *)
Fixpoint fill_ids (snid : list Z) (arr_idx : list nat) (counters : list nat)
    (arr_ID : list Z) : result (list Z) :=
  match counters with
  | [] => Ok arr_ID
  | counter :: rest =>
      rbind (at_pos arr_idx (counter - 1)) (fun start =>
      rbind (at_pos arr_idx counter) (fun stop =>
      rbind (at_pos snid (counter - 1)) (fun v =>
      fill_ids snid arr_idx rest (slice_assign 0 arr_ID start stop v))))
  end.

(** [range(a, b)] *)
Definition range (a b : nat) : list nat := seq a (b - a).

(** Lines 42-50: the identifier array for the trimmed timestamps [mjds]
    and the header keys [snid]. *)
Definition segment (mjds : list float) (snid : list Z) : result (list Z) :=
  let arr_ID := repeat 0%Z (length mjds) in
  let arr_idx := ([0] ++ where_sentinel 0 mjds ++ [length mjds])%list in
  fill_ids snid arr_idx (range 1 (length arr_idx)) arr_ID.

(** Line 61: the class-collapsing table. *)
Definition target_dict : gmap Z Z :=
  list_to_map
    [(120, 42); (20, 42); (121, 42); (21, 42); (122, 42); (22, 42);
     (130, 62); (30, 62); (131, 62); (31, 62); (101, 90); (1, 90);
     (102, 52); (2, 52); (104, 64); (4, 64); (103, 95); (3, 95);
     (191, 67); (91, 67)]%Z.

(** Line 63: the band vocabulary. *)
Definition passband_dict : gmap string Z :=
  list_to_map
    [("u ", 0); ("g ", 1); ("r ", 2); ("i ", 3); ("z ", 4); ("Y ", 5)]%Z.

Definition replace_target (t : Z) : Z := default t (target_dict !! t).

(** [passband.isin(passband_dict["passband"])]: membership in the keys. *)
Definition isin_passband (c : cell) : bool :=
  match c with
  | Bytes b => bool_decide (is_Some (passband_dict !! b))
  | Int _ => false
  end.

Definition replace_passband (c : cell) : cell :=
  match c with
  | Bytes b => match passband_dict !! b with Some n => Int n | None => c end
  | Int _ => c
  end.

(** Lines 57, 59, 61 on one header row. *)
Definition head_row_of (r : raw_head) : Head.row :=
  Head.Row (SNID r) (replace_target (SNTYPE r)) (PEAKMJD r) (REDSHIFT_FINAL r)
    (REDSHIFT_FINAL_ERR r) (MWEBV r).

(** Lines 58, 62 on one photometry row that carries its [SNID]. *)
Definition phot_row_of (r : Z * raw_phot) : Phot.row :=
  Phot.Row (fst r) (MJD (snd r)) (Bytes (FLT (snd r))) (FLUXCAL (snd r))
    (FLUXCALERR (snd r)).

Definition on_rows {A B : Type} (f : A -> B) (df : frame A) : frame B :=
  List.map (fun r => (fst r, f (snd r))) df.

Definition keep_rows {A : Type} (p : A -> bool) (df : frame A) : frame A :=
  List.filter (fun r => p (snd r)) df.

Definition column {A B : Type} (f : A -> B) (df : frame A) : list B :=
  List.map (fun r => f (snd r)) df.

(** [df["SNID"] = arr]: positional assignment of a new column. *)
Definition with_column {A : Type} (df : frame A) (arr : list Z) : frame (Z * A) :=
  List.map (fun p => (fst (fst p), (snd p, snd (fst p)))) (combine df arr).

(** Lines 39-66 once both frames are loaded: the returned pair and the
    rows reported on line 64. *)
Definition normalise (drop_separators : bool) (df_phot : frame raw_phot)
    (df_header : frame raw_head)
  : result (frame Head.row * frame Phot.row * frame Phot.row) :=
  let df_header := on_rows astype_SNID df_header in
  rbind (segment (column MJD df_phot) (column SNID df_header)) (fun arr_ID =>
  let df_phot := with_column df_phot arr_ID in
  let df_phot :=
    if drop_separators
    then keep_rows (fun r => negb (is_sentinel (MJD (snd r)))) df_phot
    else df_phot in
  let df_header := on_rows head_row_of df_header in
  let df_phot := on_rows phot_row_of df_phot in
  let unexpected := keep_rows (fun r => negb (isin_passband (Phot.passband r))) df_phot in
  let df_phot := keep_rows (fun r => isin_passband (Phot.passband r)) df_phot in
  let df_phot :=
    on_rows (fun r => Phot.Row (Phot.object_id r) (Phot.mjd r)
                        (replace_passband (Phot.passband r)) (Phot.flux r)
                        (Phot.flux_err r)) df_phot in
  Ok (df_header, df_phot, unexpected)).

(** ** The file system and the program monad *)

Inductive file : Type :=
| Fits (t : table)
| Csv (df : DataFrame)
| Blob.

Inductive out_line : Type :=
| PrintEmpty
| PrintUnexpected (rows : frame Phot.row)
| PrintWriting (path : string).

(** [files]: the regular files by path; [dirs]: the directories by path,
    each with the names [os.scandir] yields for it; [opened]: the paths
    handed to [Table.read], oldest first; [stdout]: what was printed. *)
Record world : Type := World
  { files : gmap string file;
    dirs : gmap string (list string);
    opened : list string;
    stdout : list out_line }.

Definition M (A : Type) : Type := world -> result A * world.

Definition ret {A : Type} (a : A) : M A := fun w => (Ok a, w).

Definition bind {A B : Type} (m : M A) (k : A -> M B) : M B :=
  fun w =>
    match m w with
    | (Ok a, w') => k a w'
    | (Raise e, w') => (Raise e, w')
    end.

Definition lift {A : Type} (r : result A) : M A := fun w => (r, w).

Declare Scope prog_scope.
Delimit Scope prog_scope with prog.
Notation "x <- m ;; k" := (bind m (fun x => k))
  (at level 100, m at next level, right associativity) : prog_scope.
Notation "m ;; k" := (bind m (fun _ => k))
  (at level 100, right associativity) : prog_scope.
Open Scope prog_scope.

Definition print (l : out_line) : M unit :=
  fun w => (Ok tt, World (files w) (dirs w) (opened w) (stdout w ++ [l])%list).

(** [Table.read(fname, format='fits')] *)
Definition Table_read (fname : string) : M table :=
  fun w =>
    match files w !! fname with
    | None => (Raise FileNotFoundError, w)
    | Some f =>
        let w' := World (files w) (dirs w) (opened w ++ [fname])%list (stdout w) in
        match f with
        | Fits t => (Ok t, w')
        | _ => (Raise OSError, w')
        end
    end.

(** Whether a file or a directory is at [p]. *)
Definition exists_at (w : world) (p : string) : bool :=
  bool_decide (is_Some (files w !! p)) || bool_decide (is_Some (dirs w !! p)).

(** [os.path.exists] *)
Definition path_exists (p : string) : M bool :=
  fun w => (Ok (exists_at w p), w).

(** [os.makedirs] *)
Definition makedirs (p : string) : M unit :=
  fun w => (Ok tt, World (files w) (<[p := []]> (dirs w)) (opened w) (stdout w)).

(** [df.to_csv(path)] *)
Definition to_csv (df : DataFrame) (p : string) : M unit :=
  fun w => (Ok tt, World (<[p := Csv df]> (files w)) (dirs w) (opened w) (stdout w)).

Record DirEntry : Type := Entry { name : string; path : string }.

(** [os.scandir] *)
Definition scandir (d : string) : M (list DirEntry) :=
  fun w =>
    match dirs w !! d with
    | None => (Raise FileNotFoundError, w)
    | Some names => (Ok (List.map (fun n => Entry n (PyStr.join d n)) names), w)
    end.

(** ** [read_fits] *)

(** [df_phot.MJD]: the attribute exists on photometry frames only. *)
Definition phot_frame (df : DataFrame) : result (frame raw_phot) :=
  match df with
  | RawPhot rows => Ok rows
  | _ => Raise AttributeError
  end.

(** [df_header["SNID"]] *)
Definition head_frame (df : DataFrame) : result (frame raw_head) :=
  match df with
  | RawHead rows => Ok rows
  | _ => Raise KeyError
  end.

Definition read_fits (fname : string) (drop_separators : bool)
  : M (DataFrame * DataFrame) :=
  dat <- Table_read fname ;;
  let df_phot := to_pandas dat in
  if empty df_phot then
    print PrintEmpty ;;
    ret (df_phot, df_phot)
  else
    df_phot <- lift (phot_frame df_phot) ;;
    df_phot <- lift (trim df_phot) ;;
    header <- Table_read (PyStr.replace "PHOT" "HEAD" fname) ;;
    df_header <- lift (head_frame (to_pandas header)) ;;
    out <- lift (normalise drop_separators df_phot df_header) ;;
    print (PrintUnexpected (snd out)) ;;
    ret (HeadDf (fst (fst out)), PhotDf (snd (fst out))).

(** ** The driver (lines 92-107) *)

Definition csv_metadata_path (output_dir path : string) : string :=
  PyStr.join output_dir
    (PyStr.replace "PHOT.FITS.gz" "HEAD.csv" (PyStr.basename path)).

Definition csv_lcdata_path (output_dir path : string) : string :=
  PyStr.join output_dir
    (PyStr.replace ".FITS.gz" ".csv" (PyStr.basename path)).

(** One iteration of the loop on line 96. *)
Definition convert (output_dir path : string) : M unit :=
  done <- path_exists (csv_metadata_path output_dir path) ;;
  if done then ret tt
  else
    print (PrintWriting (csv_metadata_path output_dir path)) ;;
    tables <- read_fits path false ;;
    if empty (fst tables) then ret tt
    else
      to_csv (fst tables) (csv_metadata_path output_dir path) ;;
      to_csv (snd tables) (csv_lcdata_path output_dir path).

Fixpoint for_each {A : Type} (xs : list A) (body : A -> M unit) : M unit :=
  match xs with
  | [] => ret tt
  | x :: rest => body x ;; for_each rest body
  end.

Definition main (fits_dir output_dir : string) : M unit :=
  entries <- scandir fits_dir ;;
  let fits_paths :=
    List.map path (List.filter (fun f => PyStr.contains "PHOT.FITS" (name f)) entries) in
  present <- path_exists output_dir ;;
  (if present then ret tt else makedirs output_dir) ;;
  for_each fits_paths (convert output_dir).

(** ** Names used in the statements *)

(** The path of the header table that belongs to [fname] (line 37). *)
Definition header_path (fname : string) : string :=
  PyStr.replace "PHOT" "HEAD" fname.

(** The world after both tables were read and the report was printed. *)
Definition after_reads (w : world) (fname : string) (report : list out_line) : world :=
  World (files w) (dirs w) (opened w ++ [fname; header_path fname])%list
    (stdout w ++ report)%list.

(** The keys [normalise] hands to the loop: the header's [SNID] column
    after the cast. *)
Definition header_keys (hrows : list raw_head) : list Z :=
  List.map (fun h => SNID (astype_SNID h)) hrows.

(** The [passband] column of a table returned as photometry (the band
    column while the frame is still as loaded; header frames have none). *)
Definition passbands (df : DataFrame) : list cell :=
  match df with
  | PhotDf rows => column Phot.passband rows
  | RawPhot rows => column (fun r => Bytes (FLT r)) rows
  | RawHead _ => []
  | HeadDf _ => []
  end.

(** ** Segmentation in closed form

    These functions are not in the script; the loop of lines 47-50 is
    compared with them below.  [count_sentinel] counts the separator rows.
    [assign_keys] makes one pass over the timestamps with a running key
    position [k]: a separator first moves [k] on, and every row takes the
    key at the current position (a position beyond the keys reads as 0). *)

Fixpoint count_sentinel (mjds : list float) : nat :=
  match mjds with
  | [] => 0
  | m :: rest => (if is_sentinel m then 1 else 0) + count_sentinel rest
  end.

Fixpoint assign_keys (snid : list Z) (k : nat) (mjds : list float) : list Z :=
  match mjds with
  | [] => []
  | m :: rest =>
      let k' := if is_sentinel m then S k else k in
      nth k' snid 0%Z :: assign_keys snid k' rest
  end.

(** The loop of [fill_ids] seen as a walk along consecutive boundaries:
    [b0] is the boundary that opens the block of key [k]. *)
Fixpoint fill_pairs (snid : list Z) (k b0 : nat) (bs : list nat) (arr : list Z)
  : result (list Z) :=
  match bs with
  | [] => Ok arr
  | b1 :: rest =>
      rbind (at_pos snid k) (fun v =>
      fill_pairs snid (S k) b1 rest (slice_assign 0 arr b0 b1 v))
  end.

(** What that walk writes between [b0] and the last boundary. *)
Fixpoint blocks (snid : list Z) (k b0 : nat) (bs : list nat) : list Z :=
  match bs with
  | [] => []
  | b1 :: rest => (repeat (nth k snid 0%Z) (b1 - b0) ++ blocks snid (S k) b1 rest)%list
  end.

(** Boundaries in ascending order, none beyond [bound]. *)
Fixpoint ascending (b0 : nat) (bs : list nat) (bound : nat) : Prop :=
  match bs with
  | [] => b0 <= bound
  | b1 :: rest => b0 <= b1 /\ ascending b1 rest bound
  end.

(** The last boundary of [b0 :: bs]. *)
Fixpoint final (b0 : nat) (bs : list nat) : nat :=
  match bs with
  | [] => b0
  | b1 :: rest => final b1 rest
  end.

(** ** Sample data *)

Definition sep_row : raw_phot := RawPhotRow sentinel "- " sentinel sentinel.

Definition obs_row (t : float) (band : string) : raw_phot :=
  RawPhotRow t band 1%float 1%float.

Definition head_of (key : Z) : raw_head :=
  RawHeadRow key 120 0%float 0%float 0%float 0%float.


Definition one_file (p : string) (f : file) : world :=
  World {[ p := f ]} ∅ [] [].

(** A directory [sim] holding one batch. *)
Definition batch (phot : list raw_phot) (head : list raw_head) : world :=
  World (<["sim/DES_PHOT.FITS.gz" := Fits (PhotTable phot)]>
           {[ "sim/DES_HEAD.FITS.gz" := Fits (HeadTable head) ]})
        {[ "sim" := ["DES_PHOT.FITS.gz"; "DES_HEAD.FITS.gz"] ]} [] [].

(** A directory [sim] holding one batch stored without compression. *)
Definition plain_batch (phot : list raw_phot) (head : list raw_head) : world :=
  World (<["sim/DES_PHOT.FITS" := Fits (PhotTable phot)]>
           {[ "sim/DES_HEAD.FITS" := Fits (HeadTable head) ]})
        {[ "sim" := ["DES_PHOT.FITS"; "DES_HEAD.FITS"] ]} [] [].

(** The world after one run over the batch of two observations. *)
Definition converted : world :=
  snd (main "sim" "out"
         (batch [obs_row 1 "u "; obs_row 2 "g "] [head_of 7])).

(** ** Stages of [normalise]

    Names for the intermediate frames of lines 51-66, used to state what
    the reader returns. *)

(** Lines 51-58 and 62: the photometry frame with its [SNID] column, after
    the optional removal of separator rows, in the renamed columns. *)
Definition tagged (drop_separators : bool) (df_phot : frame raw_phot)
    (arr_ID : list Z) : frame Phot.row :=
  on_rows phot_row_of
    (if drop_separators
     then keep_rows (fun r => negb (is_sentinel (MJD (snd r)))) (with_column df_phot arr_ID)
     else with_column df_phot arr_ID).

(** The test of lines 64-65 on a row. *)
Definition in_vocabulary (r : Phot.row) : bool := isin_passband (Phot.passband r).

(** Line 66 on a row. *)
Definition recode (r : Phot.row) : Phot.row :=
  Phot.Row (Phot.object_id r) (Phot.mjd r) (replace_passband (Phot.passband r))
    (Phot.flux r) (Phot.flux_err r).

(** Rows that are observations, not separators. *)
Definition observation (r : raw_phot) : bool := negb (is_sentinel (MJD r)).

(** A 32-bit signed value. *)
Definition int32_range (z : Z) : Prop := (- 2 ^ 31 <= z < 2 ^ 31)%Z.

(** The rows of a frame returned as a header table, and of one returned
    as a photometry table. *)
Definition head_rows (df : DataFrame) : frame Head.row :=
  match df with
  | HeadDf rows => rows
  | _ => []
  end.

Definition phot_rows (df : DataFrame) : frame Phot.row :=
  match df with
  | PhotDf rows => rows
  | _ => []
  end.

(** The index labels of a frame, in row order. *)
Definition labels {A : Type} (df : frame A) : list nat := List.map fst df.

(** * Properties *)

(** ** Python string primitives on examples *)

Example replace_gz :
  PyStr.replace "PHOT.FITS.gz" "HEAD.csv" "DES_PHOT.FITS.gz" = "DES_HEAD.csv".
Proof. reflexivity. Qed.

Example replace_all_occurrences :
  PyStr.replace "PHOT" "HEAD" "PHOTO/xPHOTPHOT" = "HEADO/xHEADHEAD".
Proof. reflexivity. Qed.

Example replace_empty_pattern : PyStr.replace "" "-" "ab" = "-a-b-".
Proof. reflexivity. Qed.

Example basename_ex :
  PyStr.basename "/data/sim/DES_PHOT.FITS.gz" = "DES_PHOT.FITS.gz".
Proof. reflexivity. Qed.

Example join_ex :
  PyStr.join "out" "a.csv" = "out/a.csv" /\ PyStr.join "out/" "a.csv" = "out/a.csv".
Proof. split; reflexivity. Qed.

(** ** Index labels and trimming *)

Section Labels.
Context {A : Type}.

Lemma combine_seq_app (a : nat) (xs ys : list A) :
  combine (seq a (length (xs ++ ys)%list)) (xs ++ ys)%list
  = (combine (seq a (length xs)) xs
       ++ combine (seq (a + length xs) (length ys)) ys)%list.
Proof.
  revert a. induction xs as [|x xs IH]; intros a; simpl.
  - now rewrite Nat.add_0_r.
  - rewrite IH. now rewrite Nat.add_succ_r.
Qed.

Lemma combine_seq_label (a : nat) (xs : list A) (r : nat * A) :
  In r (combine (seq a (length xs)) xs) -> a <= fst r < a + length xs.
Proof.
  destruct r as [i x]. intros Hin. apply in_combine_l in Hin.
  apply in_seq in Hin. simpl. lia.
Qed.

Lemma drop_label_fresh (l : nat) (df : frame A) :
  (forall r, In r df -> fst r <> l) -> drop_label l df = df.
Proof.
  induction df as [|r df IH]; intros Hfresh; simpl; [reflexivity|].
  destruct (Nat.eqb_spec (fst r) l) as [Heq|Hne]; simpl.
  - exfalso. apply (Hfresh r); [now left | exact Heq].
  - f_equal. apply IH. intros r' Hr'. apply Hfresh. now right.
Qed.

Lemma drop_label_app (l : nat) (df1 df2 : frame A) :
  drop_label l (df1 ++ df2)%list = (drop_label l df1 ++ drop_label l df2)%list.
Proof. unfold drop_label. apply List.filter_app. Qed.
End Labels.

(** The frame a table of shape [first :: middle ++ [last]] loads as. *)
Lemma range_index_ends (first last : raw_phot) (middle : list raw_phot) :
  range_index (first :: middle ++ [last])%list
  = ((0, first) :: combine (seq 1 (length middle)) middle
       ++ [(S (length middle), last)])%list.
Proof.
  unfold range_index. simpl. f_equal.
  rewrite combine_seq_app. reflexivity.
Qed.

(** C3. A table of at least two rows whose first and last timestamps are
    both [-777.0] loses exactly those two rows in the trimming step: what
    remains is the middle of the table, every row under its original
    label, whatever timestamps the new ends carry. *)
Theorem trim_removes_one_row_per_end (first last : raw_phot) (middle : list raw_phot) :
  is_sentinel (MJD first) = true ->
  is_sentinel (MJD last) = true ->
  trim (range_index (first :: middle ++ [last])%list)
  = Ok (combine (seq 1 (length middle)) middle).
Proof.
  intros Hfirst Hlast. rewrite range_index_ends.
  set (mid := combine (seq 1 (length middle)) middle).
  assert (Hmid : forall r, In r mid -> 1 <= fst r < 1 + length middle)
    by (intros r; apply combine_seq_label).
  unfold trim, trim_last, at_last.
  change ((0, first) :: mid ++ [(S (length middle), last)])%list
    with (((0, first) :: mid) ++ [(S (length middle), last)])%list.
  rewrite last_snoc. simpl rbind. rewrite Hlast.
  rewrite drop_label_app.
  rewrite (drop_label_fresh (S (length middle)) mid).
  2:{ intros r Hr. apply Hmid in Hr. lia. }
  unfold drop_label at 1. simpl List.filter.
  rewrite Nat.eqb_refl. simpl. rewrite app_nil_r.
  unfold trim_first, at_pos. simpl. rewrite Hfirst. simpl.
  f_equal. apply drop_label_fresh.
  intros r Hr. apply Hmid in Hr. lia.
Qed.

Lemma trim_removes_one_row_per_end_witness :
  trim (range_index (sep_row :: [sep_row; obs_row 5 "u "; sep_row] ++ [sep_row])%list)
  = Ok (combine (seq 1 3) [sep_row; obs_row 5 "u "; sep_row]).
Proof.
  apply (trim_removes_one_row_per_end sep_row sep_row
           [sep_row; obs_row 5 "u "; sep_row]); vm_compute; reflexivity.
Defined.

(** The end check comes first: on a single separator row it empties the
    frame, and the start check then indexes an empty array. *)
Lemma trim_single_sentinel (r : raw_phot) :
  is_sentinel (MJD r) = true -> trim (range_index [r]) = Raise IndexError.
Proof.
  intros Hr. unfold trim, trim_last, at_last. simpl. rewrite Hr.
  reflexivity.
Qed.

(** C8. A photometry file of exactly one row whose timestamp is [-777.0]
    makes [read_fits] raise [IndexError]: no pair of tables is returned. *)
Theorem read_fits_single_sentinel_raises (fname : string) (drop_separators : bool)
    (w : world) (r : raw_phot) :
  files w !! fname = Some (Fits (PhotTable [r])) ->
  is_sentinel (MJD r) = true ->
  fst (read_fits fname drop_separators w) = Raise IndexError.
Proof.
  intros Hfile Hr. unfold read_fits, bind, Table_read. rewrite Hfile.
  simpl. unfold lift. rewrite (trim_single_sentinel r Hr). reflexivity.
Qed.

Lemma read_fits_single_sentinel_raises_witness :
  fst (read_fits "sim/DES_PHOT.FITS.gz" false
         (one_file "sim/DES_PHOT.FITS.gz" (Fits (PhotTable [sep_row]))))
  = Raise IndexError.
Proof.
  apply (read_fits_single_sentinel_raises _ _ _ sep_row); vm_compute; reflexivity.
Defined.

(** ** Segmentation *)

Lemma slice_assign_take_drop (v : Z) (arr : list Z) :
  forall i start stop,
    start <= stop -> stop <= i + length arr ->
    slice_assign i arr start stop v
    = (take (start - i) arr ++ repeat v (stop - Nat.max start i)
         ++ drop (stop - i) arr)%list.
Proof.
  induction arr as [|x rest IH]; intros i start stop Hle Hstop; simpl in *.
  - replace (stop - Nat.max start i) with 0 by lia.
    now rewrite take_nil, drop_nil.
  - rewrite IH by lia.
    destruct (Nat.leb_spec start i) as [Hs|Hs];
      destruct (Nat.ltb_spec i stop) as [He|He]; simpl.
    + replace (start - i) with 0 by lia.
      replace (start - S i) with 0 by lia.
      replace (stop - Nat.max start i) with (S (stop - Nat.max start (S i))) by lia.
      replace (stop - i) with (S (stop - S i)) by lia.
      reflexivity.
    + replace (start - i) with 0 by lia.
      replace (start - S i) with 0 by lia.
      replace (stop - Nat.max start i) with 0 by lia.
      replace (stop - Nat.max start (S i)) with 0 by lia.
      replace (stop - i) with 0 by lia.
      replace (stop - S i) with 0 by lia.
      reflexivity.
    + replace (start - i) with (S (start - S i)) by lia.
      replace (stop - Nat.max start i) with (stop - Nat.max start (S i)) by lia.
      replace (stop - i) with (S (stop - S i)) by lia.
      reflexivity.
    + lia.
Qed.

Lemma at_pos_nth (snid : list Z) (k : nat) :
  k < length snid -> at_pos snid k = Ok (nth k snid 0%Z).
Proof.
  intros Hk. unfold at_pos.
  destruct (snid !! k) as [v|] eqn:Hv.
  - f_equal. symmetry. apply nth_lookup_Some with (d := 0%Z) in Hv. exact Hv.
  - apply lookup_ge_None in Hv. lia.
Qed.

Lemma at_pos_beyond {A : Type} (xs : list A) (k : nat) :
  length xs <= k -> at_pos xs k = Raise IndexError.
Proof.
  intros Hk. unfold at_pos. now rewrite (proj2 (lookup_ge_None xs k) Hk).
Qed.

Lemma ascending_final (bs : list nat) :
  forall b0 bound, ascending b0 bs bound -> b0 <= final b0 bs <= bound.
Proof.
  induction bs as [|b1 rest IH]; intros b0 bound Hasc; simpl in *; [lia|].
  destruct Hasc as [H01 Hrest]. specialize (IH _ _ Hrest). lia.
Qed.

(** With enough keys the walk writes one run per block and nothing else. *)
Lemma fill_pairs_blocks (snid : list Z) (bs : list nat) :
  forall k b0 arr,
    ascending b0 bs (length arr) ->
    k + length bs <= length snid ->
    fill_pairs snid k b0 bs arr
    = Ok (take b0 arr ++ blocks snid k b0 bs ++ drop (final b0 bs) arr)%list.
Proof.
  induction bs as [|b1 rest IH]; intros k b0 arr Hasc Hkeys; simpl in *.
  - now rewrite take_drop.
  - destruct Hasc as [H01 Hrest].
    pose proof (ascending_final _ _ _ Hrest) as Hfin.
    rewrite at_pos_nth by lia. simpl.
    set (v := nth k snid 0%Z).
    rewrite slice_assign_take_drop by lia.
    rewrite Nat.sub_0_r, Nat.max_0_r, Nat.sub_0_r.
    set (arr' := (take b0 arr ++ repeat v (b1 - b0) ++ drop b1 arr)%list).
    assert (Hlen : length arr' = length arr).
    { unfold arr'. rewrite !length_app, length_take, repeat_length, length_drop. lia. }
    rewrite IH; [|now rewrite Hlen|lia].
    f_equal.
    assert (Hpre : length (take b0 arr ++ repeat v (b1 - b0))%list = b1).
    { rewrite length_app, length_take, repeat_length. lia. }
    assert (Htake : take b1 arr' = (take b0 arr ++ repeat v (b1 - b0))%list).
    { unfold arr'. rewrite app_assoc.
      rewrite take_app_length'; [reflexivity | now rewrite Hpre]. }
    assert (Hdrop : drop (final b1 rest) arr' = drop (final b1 rest) arr).
    { unfold arr'. rewrite app_assoc.
      replace (final b1 rest) with (b1 + (final b1 rest - b1)) at 1 by lia.
      rewrite <- Hpre at 1. rewrite drop_app_add'; [|reflexivity].
      rewrite drop_drop. f_equal. lia. }
    rewrite Htake, Hdrop. now rewrite <- !app_assoc.
Qed.

(** Without enough keys the header lookup fails before the walk ends. *)
Lemma fill_pairs_short (snid : list Z) (bs : list nat) :
  forall k b0 arr,
    k <= length snid ->
    length snid < k + length bs ->
    fill_pairs snid k b0 bs arr = Raise IndexError.
Proof.
  induction bs as [|b1 rest IH]; intros k b0 arr Hk0 Hkeys; simpl in *; [lia|].
  destruct (Nat.lt_ge_cases k (length snid)) as [Hk|Hk].
  - rewrite at_pos_nth by exact Hk. simpl. apply IH; lia.
  - now rewrite at_pos_beyond.
Qed.

(** The counters [1 .. len(arr_idx) - 1] visit the boundaries pairwise. *)
Lemma fill_ids_pairs (snid : list Z) (bs : list nat) :
  forall pre b0 arr,
    fill_ids snid (pre ++ b0 :: bs)%list (seq (S (length pre)) (length bs)) arr
    = fill_pairs snid (length pre) b0 bs arr.
Proof.
  induction bs as [|b1 rest IH]; intros pre b0 arr; simpl; [reflexivity|].
  rewrite Nat.sub_0_r.
  assert (H0 : at_pos (pre ++ b0 :: b1 :: rest)%list (length pre) = Ok b0).
  { unfold at_pos. now rewrite list_lookup_middle. }
  assert (H1 : at_pos (pre ++ b0 :: b1 :: rest)%list (S (length pre)) = Ok b1).
  { unfold at_pos. rewrite lookup_app_r by lia.
    now replace (S (length pre) - length pre) with 1 by lia. }
  rewrite H0, H1. simpl.
  destruct (at_pos snid (length pre)) as [v|e]; simpl; [|reflexivity].
  specialize (IH (pre ++ [b0])%list b1 (slice_assign 0 arr b0 b1 v)).
  rewrite <- app_assoc in IH. simpl in IH.
  rewrite length_app in IH. simpl in IH.
  rewrite Nat.add_1_r in IH. exact IH.
Qed.

Lemma where_sentinel_length (mjds : list float) :
  forall i, length (where_sentinel i mjds) = count_sentinel mjds.
Proof.
  induction mjds as [|m rest IH]; intros i; simpl; [reflexivity|].
  destruct (is_sentinel m); simpl; now rewrite IH.
Qed.

Lemma where_sentinel_ascending (mjds : list float) :
  forall i b0,
    b0 <= i ->
    ascending b0 (where_sentinel i mjds ++ [i + length mjds])%list (i + length mjds).
Proof.
  induction mjds as [|m rest IH]; intros i b0 Hb0; simpl.
  - lia.
  - replace (i + S (length rest)) with (S i + length rest) by lia.
    destruct (is_sentinel m); simpl.
    + split; [exact Hb0|]. apply IH. lia.
    + apply IH. lia.
Qed.

Lemma where_sentinel_final (mjds : list float) :
  forall i b0, final b0 (where_sentinel i mjds ++ [i + length mjds])%list = i + length mjds.
Proof.
  induction mjds as [|m rest IH]; intros i b0; simpl; [reflexivity|].
  replace (i + S (length rest)) with (S i + length rest) by lia.
  destruct (is_sentinel m); simpl; apply IH.
Qed.

(** The runs written for the boundaries of [mjds] are the keys of
    [assign_keys], behind what is still owed to the open block. *)
Lemma blocks_assign_keys (snid : list Z) (mjds : list float) :
  forall i k b0,
    b0 <= i ->
    blocks snid k b0 (where_sentinel i mjds ++ [i + length mjds])%list
    = (repeat (nth k snid 0%Z) (i - b0) ++ assign_keys snid k mjds)%list.
Proof.
  induction mjds as [|m rest IH]; intros i k b0 Hb0; simpl.
  - now rewrite Nat.add_0_r, app_nil_r.
  - replace (i + S (length rest)) with (S i + length rest) by lia.
    destruct (is_sentinel m); simpl.
    + rewrite IH by lia.
      replace (S i - i) with 1 by lia. reflexivity.
    + rewrite IH by lia.
      replace (S i - b0) with (S (i - b0)) by lia.
      change (repeat (nth k snid 0%Z) (S (i - b0)))
        with (nth k snid 0%Z :: repeat (nth k snid 0%Z) (i - b0)).
      rewrite repeat_cons, <- app_assoc. reflexivity.
Qed.

Lemma segment_unfold (mjds : list float) (snid : list Z) :
  segment mjds snid
  = fill_pairs snid 0 0 (where_sentinel 0 mjds ++ [length mjds])%list
      (repeat 0%Z (length mjds)).
Proof.
  unfold segment, range. simpl length.
  replace (S (length (where_sentinel 0 mjds ++ [length mjds])%list) - 1)
    with (length (where_sentinel 0 mjds ++ [length mjds])%list) by lia.
  exact (fill_ids_pairs snid _ [] 0 _).
Qed.

(** The loop agrees with [assign_keys] as soon as the header has a row for
    every block, that is, one more row than there are separators. *)
Lemma segment_assign_keys (mjds : list float) (snid : list Z) :
  count_sentinel mjds < length snid ->
  segment mjds snid = Ok (assign_keys snid 0 mjds).
Proof.
  intros Hkeys. rewrite segment_unfold.
  pose proof (where_sentinel_ascending mjds 0 0 (Nat.le_refl 0)) as Hasc.
  simpl in Hasc.
  rewrite fill_pairs_blocks.
  - pose proof (where_sentinel_final mjds 0 0) as Hfin. simpl in Hfin.
    rewrite Hfin.
    pose proof (blocks_assign_keys snid mjds 0 0 0 (Nat.le_refl 0)) as Hb.
    simpl in Hb. rewrite Hb.
    rewrite drop_ge by (rewrite repeat_length; lia).
    now rewrite app_nil_r.
  - now rewrite repeat_length.
  - rewrite length_app, where_sentinel_length. simpl. lia.
Qed.

(** With fewer header rows the loop stops at a header lookup. *)
Lemma segment_short_header (mjds : list float) (snid : list Z) :
  length snid <= count_sentinel mjds ->
  segment mjds snid = Raise IndexError.
Proof.
  intros Hkeys. rewrite segment_unfold. apply fill_pairs_short; [lia|].
  rewrite length_app, where_sentinel_length. simpl. lia.
Qed.

(** Segmentation returns exactly when the header has a row for every
    block. *)
Lemma segment_returns_iff (mjds : list float) (snid : list Z) :
  (exists ids, segment mjds snid = Ok ids) <-> count_sentinel mjds < length snid.
Proof.
  split.
  - intros [ids Hids].
    destruct (Nat.lt_ge_cases (count_sentinel mjds) (length snid)) as [Hlt|Hge];
      [exact Hlt|].
    rewrite segment_short_header in Hids by exact Hge. discriminate.
  - intros Hlt. eexists. now apply segment_assign_keys.
Qed.

Lemma assign_keys_length (snid : list Z) (mjds : list float) :
  forall k, length (assign_keys snid k mjds) = length mjds.
Proof.
  induction mjds as [|m rest IH]; intros k; simpl; [reflexivity|].
  now rewrite IH.
Qed.

(** The [j]-th separator (counting from 0) receives the key at position
    [k + j + 1]. *)
Lemma assign_keys_at_sentinel (snid : list Z) (mjds : list float) :
  forall i k j p,
    where_sentinel i mjds !! j = Some p ->
    i <= p /\ assign_keys snid k mjds !! (p - i) = Some (nth (k + S j) snid 0%Z).
Proof.
  induction mjds as [|m rest IH]; intros i k j p Hp; simpl in *.
  - discriminate.
  - destruct (is_sentinel m).
    + destruct j as [|j']; simpl in Hp.
      * injection Hp as <-. split; [lia|].
        rewrite Nat.sub_diag. simpl. now rewrite Nat.add_1_r.
      * destruct (IH (S i) (S k) j' p Hp) as [Hle Hkey].
        split; [lia|].
        replace (p - i) with (S (p - S i)) by lia. simpl.
        rewrite Hkey. f_equal. f_equal. lia.
    + destruct (IH (S i) k j p Hp) as [Hle Hkey].
      split; [lia|].
      replace (p - i) with (S (p - S i)) by lia. simpl. exact Hkey.
Qed.

(** C9. Segmentation returns exactly when the header has a row for every
    block, and whenever it returns, the separator that closes block
    [j + 1] (the [j]-th position reported by [np.where], counting from 0)
    holds the header key at position [j + 1], the key of the block that
    follows it, rather than the key at position [j] of the block it
    ends. *)
Theorem segment_sentinel_gets_next_key (mjds : list float) (snid : list Z) :
  ((exists ids, segment mjds snid = Ok ids) <-> count_sentinel mjds < length snid) /\
  forall ids,
    segment mjds snid = Ok ids ->
    forall j p,
      where_sentinel 0 mjds !! j = Some p ->
      exists key, snid !! S j = Some key /\ ids !! p = Some key.
Proof.
  split; [apply segment_returns_iff|].
  intros ids Hids j p Hp.
  assert (Hkeys : count_sentinel mjds < length snid)
    by (apply segment_returns_iff; now exists ids).
  rewrite segment_assign_keys in Hids by exact Hkeys. injection Hids as <-.
  assert (Hj : S j < length snid).
  { apply lookup_lt_Some in Hp. rewrite where_sentinel_length in Hp. lia. }
  exists (nth (S j) snid 0%Z). split.
  - destruct (nth_lookup_or_length snid (S j) 0%Z) as [Hnth|Hlen]; [exact Hnth|lia].
  - destruct (assign_keys_at_sentinel snid mjds 0 0 j p Hp) as [_ Hkey].
    now rewrite Nat.sub_0_r in Hkey.
Qed.

Lemma segment_sentinel_gets_next_key_witness :
  exists ids,
    segment [1%float; sentinel; 2%float; sentinel; 3%float] [10; 20; 30]%Z = Ok ids /\
    forall j p,
      where_sentinel 0 [1%float; sentinel; 2%float; sentinel; 3%float] !! j = Some p ->
      exists key, [10; 20; 30]%Z !! S j = Some key /\ ids !! p = Some key.
Proof.
  destruct (segment_sentinel_gets_next_key
              [1%float; sentinel; 2%float; sentinel; 3%float] [10; 20; 30]%Z)
    as [Hreturns Hkeys].
  assert (Hcount : count_sentinel [1%float; sentinel; 2%float; sentinel; 3%float]
                   < length [10; 20; 30]%Z) by (vm_compute; lia).
  destruct (proj2 Hreturns Hcount) as [ids Hids].
  exists ids. split; [exact Hids|exact (Hkeys ids Hids)].
Defined.

(** The two separators of that run sit at positions 1 and 3 and hold the
    second and the third key. *)
Example segment_five_rows :
  segment [1%float; sentinel; 2%float; sentinel; 3%float] [10; 20; 30]%Z
  = Ok [10; 20; 20; 30; 30]%Z /\
  where_sentinel 0 [1%float; sentinel; 2%float; sentinel; 3%float] = [1; 3].
Proof. split; vm_compute; reflexivity. Qed.

(** ** [read_fits] step by step *)

Lemma range_index_length {A : Type} (rows : list A) :
  length (range_index rows) = length rows.
Proof.
  unfold range_index. rewrite length_combine, length_seq. lia.
Qed.

Lemma column_length {A B : Type} (f : A -> B) (df : frame A) :
  length (column f df) = length df.
Proof. unfold column. apply length_map. Qed.

Lemma on_rows_length {A B : Type} (f : A -> B) (df : frame A) :
  length (on_rows f df) = length df.
Proof. unfold on_rows. apply length_map. Qed.

(** On a non-empty photometry table that trims without error, with the
    header table in place, [read_fits] is [normalise] on the two frames. *)
Lemma read_fits_normalise (fname : string) (drop_separators : bool) (w : world)
    (rows : list raw_phot) (hrows : list raw_head) (trimmed : frame raw_phot) :
  files w !! fname = Some (Fits (PhotTable rows)) ->
  rows <> [] ->
  trim (range_index rows) = Ok trimmed ->
  files w !! header_path fname = Some (Fits (HeadTable hrows)) ->
  read_fits fname drop_separators w
  = match normalise drop_separators trimmed (range_index hrows) with
    | Ok out =>
        (Ok (HeadDf (fst (fst out)), PhotDf (snd (fst out))),
         after_reads w fname [PrintUnexpected (snd out)])
    | Raise e => (Raise e, after_reads w fname [])
    end.
Proof.
  intros Hphot Hrows Htrim Hhead.
  unfold read_fits, bind, Table_read. rewrite Hphot.
  assert (Hne : empty (to_pandas (PhotTable rows)) = false).
  { unfold empty. simpl. rewrite range_index_length.
    destruct rows; [contradiction|reflexivity]. }
  rewrite Hne. simpl. unfold lift. rewrite Htrim. simpl.
  unfold header_path in Hhead. rewrite Hhead. simpl.
  unfold after_reads. rewrite <- !app_assoc. simpl.
  destruct (normalise drop_separators trimmed (range_index hrows)) as [out|e];
    [|now rewrite app_nil_r].
  reflexivity.
Qed.

Lemma column_range_index {A B : Type} (f : A -> B) (rows : list A) :
  column f (range_index rows) = List.map f rows.
Proof.
  unfold column, range_index. generalize 0.
  induction rows as [|x rest IH]; intros a; simpl; [reflexivity|].
  now rewrite IH.
Qed.

Lemma column_on_rows {A B C : Type} (g : B -> C) (f : A -> B) (df : frame A) :
  column g (on_rows f df) = column (fun x => g (f x)) df.
Proof. unfold column, on_rows. rewrite List.map_map. reflexivity. Qed.

Lemma normalise_segment (drop_separators : bool) (df_phot : frame raw_phot)
    (hrows : list raw_head) :
  match segment (column MJD df_phot) (header_keys hrows) with
  | Ok _ => exists out, normalise drop_separators df_phot (range_index hrows) = Ok out
  | Raise e => normalise drop_separators df_phot (range_index hrows) = Raise e
  end.
Proof.
  unfold normalise. rewrite column_on_rows.
  rewrite (column_range_index (fun x => SNID (astype_SNID x)) hrows).
  fold (header_keys hrows).
  destruct (segment (column MJD df_phot) (header_keys hrows)) as [ids|e]; simpl.
  - eexists. reflexivity.
  - reflexivity.
Qed.

(** With more separators than header rows minus one the header lookup of
    the loop raises [IndexError]. *)
Lemma read_fits_short_header_raises (fname : string) (drop_separators : bool)
    (w : world) (rows : list raw_phot) (hrows : list raw_head)
    (trimmed : frame raw_phot) :
  files w !! fname = Some (Fits (PhotTable rows)) ->
  rows <> [] ->
  trim (range_index rows) = Ok trimmed ->
  files w !! header_path fname = Some (Fits (HeadTable hrows)) ->
  length hrows < count_sentinel (column MJD trimmed) + 1 ->
  fst (read_fits fname drop_separators w) = Raise IndexError.
Proof.
  intros Hphot Hrows Htrim Hhead Hcount.
  rewrite (read_fits_normalise fname drop_separators w rows hrows trimmed)
    by assumption.
  pose proof (normalise_segment drop_separators trimmed hrows) as Hnorm.
  assert (Hlen : length (header_keys hrows) = length hrows)
    by (unfold header_keys; apply length_map).
  rewrite segment_short_header in Hnorm by lia.
  now rewrite Hnorm.
Qed.




(** ** The scenario of two blocks *)






Arguments isin_passband : simpl never.
Arguments replace_passband : simpl never.
Arguments astype_int32 : simpl never.
Arguments replace_target : simpl never.




(** ** Band codes of the result *)

Lemma passband_dict_codes (b : string) (n : Z) :
  passband_dict !! b = Some n -> (0 <= n <= 5)%Z.
Proof.
  intros Hb. unfold passband_dict in Hb.
  apply elem_of_list_to_map_2 in Hb.
  repeat (apply elem_of_cons in Hb as [Hb|Hb]; [injection Hb as _ ->; lia|]).
  now apply elem_of_nil in Hb.
Qed.

(** A cell that passes [isin] becomes one of the six codes. *)
Lemma replace_passband_code (c : cell) :
  isin_passband c = true ->
  exists b n, c = Bytes b /\ passband_dict !! b = Some n /\
              replace_passband c = Int n /\ (0 <= n <= 5)%Z.
Proof.
  destruct c as [b|n]; unfold isin_passband, replace_passband; [|discriminate].
  intros Hin. apply bool_decide_eq_true in Hin. destruct Hin as [n Hn].
  exists b, n. rewrite Hn. repeat split; try reflexivity;
    apply (passband_dict_codes b n Hn).
Qed.

Lemma in_on_rows {A B : Type} (f : A -> B) (df : frame A) (l : nat) (y : B) :
  In (l, y) (on_rows f df) <-> exists x, y = f x /\ In (l, x) df.
Proof.
  unfold on_rows. rewrite in_map_iff. split.
  - intros [[l' x] [Heq Hin]]. simpl in Heq. injection Heq as <- <-.
    now exists x.
  - intros [x [-> Hin]]. now exists (l, x).
Qed.

Lemma in_keep_rows {A : Type} (p : A -> bool) (df : frame A) (r : nat * A) :
  In r (keep_rows p df) <-> In r df /\ p (snd r) = true.
Proof. unfold keep_rows. apply filter_In. Qed.

Lemma in_with_column {A : Type} (df : frame A) (arr : list Z) (l : nat) (z : Z) (x : A) :
  In (l, (z, x)) (with_column df arr) -> In (l, x) df.
Proof.
  unfold with_column. rewrite in_map_iff.
  intros [[[l' x'] z'] [Heq Hin]]. simpl in Heq. injection Heq as <- <- <-.
  now apply in_combine_l in Hin.
Qed.

(** Every row [normalise] returns stems from a row of the trimmed frame,
    under the same label and with the same timestamp, whose band code is
    in the vocabulary; its [passband] is the code of that band. *)
Lemma normalise_rows (drop_separators : bool) (df_phot : frame raw_phot)
    (df_header : frame raw_head) (out : frame Head.row * frame Phot.row * frame Phot.row)
    (l : nat) (r : Phot.row) :
  normalise drop_separators df_phot df_header = Ok out ->
  In (l, r) (snd (fst out)) ->
  exists raw n,
    In (l, raw) df_phot /\ passband_dict !! FLT raw = Some n /\
    Phot.passband r = Int n /\ Phot.mjd r = MJD raw /\ (0 <= n <= 5)%Z.
Proof.
  unfold normalise.
  destruct (segment _ _) as [ids|e]; simpl; [|discriminate].
  intros Hout Hin. injection Hout as <-. simpl in Hin.
  apply in_on_rows in Hin. destruct Hin as [r0 [-> Hin]].
  apply in_keep_rows in Hin. destruct Hin as [Hin Hisin]. simpl in Hisin.
  apply in_on_rows in Hin. destruct Hin as [[z raw] [-> Hin]].
  assert (Hraw : In (l, raw) df_phot).
  { destruct drop_separators.
    - apply in_keep_rows in Hin. destruct Hin as [Hin _].
      now apply in_with_column in Hin.
    - now apply in_with_column in Hin. }
  destruct (replace_passband_code _ Hisin) as [b [n [Hb [Hn [Hrep Hrange]]]]].
  simpl in Hb. injection Hb as <-.
  exists raw, n. simpl. repeat split; try assumption; lia.
Qed.

Lemma trim_rows (df df' : frame raw_phot) (r : nat * raw_phot) :
  trim df = Ok df' -> In r df' -> In r df.
Proof.
  unfold trim, trim_last, trim_first, rbind.
  destruct (at_last df) as [rl|e]; [|discriminate].
  set (df1 := if is_sentinel (MJD (snd rl)) then drop_label (fst rl) df else df).
  assert (H1 : In r df1 -> In r df).
  { unfold df1. destruct (is_sentinel (MJD (snd rl))); [|trivial].
    unfold drop_label. intros Hin. now apply filter_In in Hin. }
  replace (if is_sentinel (MJD (snd rl)) then Ok (drop_label (fst rl) df) else Ok df)
    with (Ok df1) by (unfold df1; now destruct (is_sentinel (MJD (snd rl)))).
  destruct (at_pos df1 0) as [rf|e]; [|discriminate].
  destruct (is_sentinel (MJD (snd rf))); intros Heq Hin; injection Heq as <-.
  - apply H1. unfold drop_label in Hin. now apply filter_In in Hin.
  - now apply H1.
Qed.

Lemma empty_passbands (df : DataFrame) : empty df = true -> passbands df = [].
Proof.
  unfold empty. intros Hempty. apply Nat.eqb_eq in Hempty.
  destruct df as [rows|rows|rows|rows]; simpl in *; try reflexivity;
    destruct rows; simpl in *; try reflexivity; discriminate.
Qed.

(** C6. Every [passband] value of the photometry table [read_fits] returns
    is one of the integers 0..5, and it is the code of the band of a row
    of the input file whose band is in the vocabulary: no other band code
    reaches the result. *)
Theorem read_fits_passband_in_vocabulary (fname : string) (drop_separators : bool)
    (w w' : world) (hdr phot : DataFrame) (c : cell) :
  read_fits fname drop_separators w = (Ok (hdr, phot), w') ->
  In c (passbands phot) ->
  exists rows raw n,
    files w !! fname = Some (Fits (PhotTable rows)) /\ In raw rows /\
    passband_dict !! FLT raw = Some n /\ c = Int n /\ (0 <= n <= 5)%Z.
Proof.
  unfold read_fits, bind, Table_read.
  destruct (files w !! fname) as [f|] eqn:Hfile; [|discriminate].
  destruct f as [t| |]; try discriminate.
  destruct (empty (to_pandas t)) eqn:Hempty.
  - simpl. intros Heq Hin. injection Heq as _ <- _.
    rewrite (empty_passbands _ Hempty) in Hin. contradiction.
  - unfold lift.
    destruct (phot_frame (to_pandas t)) as [df0|e] eqn:Hframe; [|discriminate].
    destruct (trim df0) as [trimmed|e] eqn:Htrim; [|discriminate].
    simpl.
    destruct (files w !! PyStr.replace "PHOT" "HEAD" fname) as [fh|]; [|discriminate].
    destruct fh as [th| |]; try discriminate.
    destruct (head_frame (to_pandas th)) as [dfh|e]; [|discriminate].
    destruct (normalise drop_separators trimmed dfh) as [out|e] eqn:Hnorm;
      [|discriminate].
    simpl. intros Heq Hin. injection Heq as _ <- _.
    simpl in Hin. unfold column in Hin. apply in_map_iff in Hin.
    destruct Hin as [[l r] [<- Hin]]. simpl.
    destruct (normalise_rows _ _ _ _ l r Hnorm Hin)
      as [raw [n [Hraw [Hn [Hcode [_ Hrange]]]]]].
    destruct t as [rows|rows]; simpl in Hframe; [|discriminate].
    injection Hframe as <-.
    exists rows, raw, n. split; [reflexivity|].
    split; [|auto].
    apply (trim_rows _ _ _ Htrim) in Hraw.
    unfold range_index in Hraw. now apply in_combine_r in Hraw.
Qed.

Lemma read_fits_passband_in_vocabulary_witness :
  exists rows raw n,
    files (batch [obs_row 1 "u "; obs_row 2 "X "] [head_of 7])
      !! "sim/DES_PHOT.FITS.gz" = Some (Fits (PhotTable rows)) /\ In raw rows /\
    passband_dict !! FLT raw = Some n /\ Int 0 = Int n /\ (0 <= n <= 5)%Z.
Proof.
  apply (read_fits_passband_in_vocabulary "sim/DES_PHOT.FITS.gz" false
           (batch [obs_row 1 "u "; obs_row 2 "X "] [head_of 7])
           (snd (read_fits "sim/DES_PHOT.FITS.gz" false
                   (batch [obs_row 1 "u "; obs_row 2 "X "] [head_of 7])))
           (HeadDf [(0, head_row_of (astype_SNID (head_of 7)))])
           (PhotDf [(0, Phot.Row 7 1 (Int 0) 1 1)])
           (Int 0)).
  - vm_compute. reflexivity.
  - simpl. left. reflexivity.
Defined.

(** ** The driver *)

(** An input whose header CSV is already there is passed over: the world
    is the same afterwards, nothing opened, written or printed. *)
Lemma convert_skips_existing (output_dir path : string) (w : world) :
  exists_at w (csv_metadata_path output_dir path) = true ->
  convert output_dir path w = (Ok tt, w).
Proof.
  intros Hdone. unfold convert, bind, path_exists. rewrite Hdone. reflexivity.
Qed.

(** A loop whose body leaves the world alone on every element leaves it
    alone altogether. *)
Lemma for_each_unchanged {A : Type} (xs : list A) (body : A -> M unit) (w : world) :
  (forall x, In x xs -> body x w = (Ok tt, w)) ->
  for_each xs body w = (Ok tt, w).
Proof.
  induction xs as [|x rest IH]; intros Hbody; simpl; [reflexivity|].
  unfold bind. rewrite Hbody by now left.
  apply IH. intros y Hy. apply Hbody. now right.
Qed.

(** C4. When the header CSV of every input path exists, the loop of the
    driver returns with the world untouched: no table was opened (the log
    of [Table.read] is the same), no file was written, nothing was
    printed. *)
Theorem driver_skips_existing_outputs (output_dir : string) (paths : list string)
    (w : world) :
  (forall p, In p paths -> exists_at w (csv_metadata_path output_dir p) = true) ->
  for_each paths (convert output_dir) w = (Ok tt, w).
Proof.
  intros Hdone. apply for_each_unchanged.
  intros p Hp. apply convert_skips_existing. now apply Hdone.
Qed.

Lemma driver_skips_existing_outputs_witness :
  for_each ["sim/DES_PHOT.FITS.gz"] (convert "out") converted = (Ok tt, converted).
Proof.
  apply (driver_skips_existing_outputs "out" ["sim/DES_PHOT.FITS.gz"] converted).
  intros p [<-|[]]. vm_compute. reflexivity.
Defined.

Lemma scandir_in (d : string) (w : world) (names : list string) :
  dirs w !! d = Some names ->
  scandir d w = (Ok (List.map (fun n => Entry n (PyStr.join d n)) names), w).
Proof. intros Hd. unfold scandir. now rewrite Hd. Qed.

(** The same for the whole script: run again over a directory whose
    outputs all exist, it leaves the world as it found it. *)
Lemma main_rerun (fits_dir output_dir : string) (w : world) (names : list string) :
  dirs w !! fits_dir = Some names ->
  exists_at w output_dir = true ->
  (forall n, In n names -> PyStr.contains "PHOT.FITS" n = true ->
             exists_at w (csv_metadata_path output_dir (PyStr.join fits_dir n)) = true) ->
  main fits_dir output_dir w = (Ok tt, w).
Proof.
  intros Hdir Hout Hdone. unfold main, bind at 1.
  rewrite (scandir_in _ _ _ Hdir).
  unfold bind at 1, path_exists. rewrite Hout.
  unfold bind at 1, ret.
  apply for_each_unchanged.
  intros p Hp. apply convert_skips_existing.
  apply in_map_iff in Hp. destruct Hp as [e [<- He]].
  apply filter_In in He. destruct He as [He Hname].
  apply in_map_iff in He. destruct He as [n [<- Hn]]. simpl in *.
  now apply Hdone.
Qed.

(** C5. On a photometry file without rows [read_fits] returns the empty
    frame twice and raises nothing, and the driver's iteration for that
    file ends normally with the files of the world unchanged: neither CSV
    is written. *)
Theorem empty_photometry_writes_nothing (output_dir path : string)
    (drop_separators : bool) (w : world) :
  files w !! path = Some (Fits (PhotTable [])) ->
  fst (read_fits path drop_separators w) = Ok (RawPhot [], RawPhot []) /\
  empty (RawPhot []) = true /\
  fst (convert output_dir path w) = Ok tt /\
  files (snd (convert output_dir path w)) = files w.
Proof.
  intros Hfile.
  assert (Hread : forall d w0, files w0 = files w ->
            exists w1, read_fits path d w0 = (Ok (RawPhot [], RawPhot []), w1) /\
                       files w1 = files w).
  { intros d w0 Hw0.
    assert (Hfile0 : files w0 !! path = Some (Fits (PhotTable [])))
      by (rewrite Hw0; exact Hfile).
    unfold read_fits, bind, Table_read.
    rewrite Hfile0. simpl. eexists. split; [reflexivity|]. simpl. exact Hw0. }
  split.
  { destruct (Hread drop_separators w eq_refl) as [w1 [-> _]]. reflexivity. }
  split; [reflexivity|].
  assert (Hconv : exists w1, convert output_dir path w = (Ok tt, w1) /\
                             files w1 = files w).
  { unfold convert, bind, path_exists.
    destruct (exists_at w (csv_metadata_path output_dir path)).
    - eexists. split; reflexivity.
    - unfold print.
      match goal with
      | |- context [read_fits path false ?w0] =>
          destruct (Hread false w0 eq_refl) as [w1 [Hw1 Hfiles]]
      end.
      rewrite Hw1. simpl. eexists. split; [reflexivity|exact Hfiles]. }
  destruct Hconv as [w1 [-> Hfiles]]. split; [reflexivity|exact Hfiles].
Qed.

Lemma empty_photometry_writes_nothing_witness :
  fst (read_fits "sim/DES_PHOT.FITS.gz" false (batch [] [head_of 7]))
  = Ok (RawPhot [], RawPhot []) /\
  empty (RawPhot []) = true /\
  fst (convert "out" "sim/DES_PHOT.FITS.gz" (batch [] [head_of 7])) = Ok tt /\
  files (snd (convert "out" "sim/DES_PHOT.FITS.gz" (batch [] [head_of 7])))
  = files (batch [] [head_of 7]).
Proof.
  apply (empty_photometry_writes_nothing "out" "sim/DES_PHOT.FITS.gz" false
           (batch [] [head_of 7])).
  vm_compute. reflexivity.
Defined.

(** ** Python strings: the scan of [replace] *)

Section Strings.

Lemma append_nil_l (b : string) : "" +:+ b = b.
Proof. reflexivity. Qed.

Lemma append_cons (x : ascii) (a b : string) :
  String x a +:+ b = String x (a +:+ b).
Proof. reflexivity. Qed.

Lemma append_assoc (a b c : string) : (a +:+ b) +:+ c = a +:+ (b +:+ c).
Proof.
  induction a as [|x a IH]; [reflexivity|].
  rewrite !append_cons. f_equal. exact IH.
Qed.

Lemma append_empty_r (a : string) : a +:+ "" = a.
Proof.
  induction a as [|x a IH]; [reflexivity|].
  rewrite append_cons. f_equal. exact IH.
Qed.

Lemma length_append (a b : string) :
  String.length (a +:+ b) = String.length a + String.length b.
Proof.
  induction a as [|x a IH]; [reflexivity|].
  rewrite append_cons. simpl. f_equal. exact IH.
Qed.

Lemma prefix_length (old : string) :
  forall s, String.prefix old s = true -> String.length old <= String.length s.
Proof.
  induction old as [|a old IH]; intros s Hpre; simpl; [lia|].
  destruct s as [|x s]; simpl in *; [discriminate|].
  destruct (ascii_dec a x); [|discriminate].
  apply IH in Hpre. lia.
Qed.

Lemma prefix_cons (a x : ascii) (q t : string) :
  String.prefix (String a q) (String x t)
  = if ascii_dec a x then String.prefix q t else false.
Proof. reflexivity. Qed.

Lemma prefix_empty (old : string) : old <> "" -> String.prefix old "" = false.
Proof. destruct old; [contradiction|reflexivity]. Qed.

(** A pattern without the separator [c] cannot reach across it. *)
Lemma prefix_before_separator (c : ascii) (old : string) :
  old <> "" -> PyStr.has_char c old = false ->
  forall d f, String.prefix old (d +:+ String c f) = String.prefix old d.
Proof.
  intros Hne. clear Hne.
  induction old as [|a old IH]; intros Hc d f.
  - destruct d; reflexivity.
  - simpl in Hc. apply orb_false_iff in Hc. destruct Hc as [Hac Hc].
    destruct d as [|x d]; [rewrite append_nil_l|rewrite append_cons]; simpl.
    + destruct (ascii_dec a c) as [->|Hne]; [|reflexivity].
      now rewrite Ascii.eqb_refl in Hac.
    + destruct (ascii_dec a x); [|reflexivity].
      destruct old as [|b old'].
      * destruct d; reflexivity.
      * apply IH. exact Hc.
Qed.

Lemma drop_length (n : nat) :
  forall s, String.length (PyStr.drop n s) = String.length s - n.
Proof.
  induction n as [|n IH]; intros s; simpl; [lia|].
  destruct s as [|x s]; simpl; [reflexivity|apply IH].
Qed.

Lemma drop_append (n : nat) :
  forall d r, n <= String.length d -> PyStr.drop n (d +:+ r) = PyStr.drop n d +:+ r.
Proof.
  induction n as [|n IH]; intros d r Hn; [reflexivity|].
  destruct d as [|x d]; simpl in Hn; [lia|].
  rewrite append_cons. simpl. apply IH. lia.
Qed.

Variables old new : string.
Hypothesis old_nonempty : old <> "".

Lemma replace_scan_S (n : nat) (s : string) :
  PyStr.replace_scan (S n) old new s
  = if String.prefix old s
    then new +:+ PyStr.replace_scan n old new (PyStr.drop (String.length old) s)
    else match s with
         | EmptyString => EmptyString
         | String x t => String x (PyStr.replace_scan n old new t)
         end.
Proof. reflexivity. Qed.

Lemma replace_scan_empty (n : nat) : PyStr.replace_scan n old new "" = "".
Proof.
  destruct n; [reflexivity|].
  pose proof (prefix_empty old old_nonempty) as Hpre.
  simpl in *. now rewrite Hpre.
Qed.

Lemma old_length_positive : 1 <= String.length old.
Proof. destruct old; [contradiction|simpl; lia]. Qed.

(** Fuel beyond the length of the string changes nothing. *)
Lemma replace_scan_fuel (n : nat) :
  forall m s,
    String.length s <= n -> String.length s <= m ->
    PyStr.replace_scan n old new s = PyStr.replace_scan m old new s.
Proof.
  pose proof old_length_positive as Hold.
  induction n as [|n IH]; intros m s Hn Hm.
  - destruct s; simpl in Hn; [|lia].
    now rewrite (replace_scan_empty 0), (replace_scan_empty m).
  - destruct m as [|m].
    + destruct s; simpl in Hm; [|lia].
      now rewrite (replace_scan_empty (S n)), (replace_scan_empty 0).
    + rewrite !replace_scan_S. destruct (String.prefix old s) eqn:Hpre.
      * f_equal. pose proof (prefix_length _ _ Hpre) as Hlen.
        apply IH; rewrite drop_length; lia.
      * destruct s as [|x s]; [reflexivity|]. simpl in Hn, Hm.
        f_equal. apply IH; lia.
Qed.

Lemma replace_unfold (s : string) :
  PyStr.replace old new s = PyStr.replace_scan (String.length s) old new s.
Proof. unfold PyStr.replace. destruct old; [contradiction|reflexivity]. Qed.

(** The scan treats both sides of a separator the pattern does not
    contain on their own. *)
Lemma replace_scan_separator (c : ascii) (f : string) :
  PyStr.has_char c old = false ->
  forall n d,
    String.length d <= n ->
    PyStr.replace_scan (n + S (String.length f)) old new (d +:+ String c f)
    = PyStr.replace_scan n old new d
        +:+ String c (PyStr.replace_scan (String.length f) old new f).
Proof.
  intros Hc. pose proof old_length_positive as Hold.
  induction n as [|n IH]; intros d Hd.
  - destruct d; simpl in Hd; [|lia].
    rewrite append_nil_l, replace_scan_empty, append_nil_l.
    pose proof (prefix_before_separator c old old_nonempty Hc "" f) as Hsep.
    rewrite append_nil_l, (prefix_empty old old_nonempty) in Hsep.
    change (0 + S (String.length f)) with (S (String.length f)).
    rewrite replace_scan_S, Hsep. reflexivity.
  - change (S n + S (String.length f)) with (S (n + S (String.length f))).
    rewrite !replace_scan_S.
    rewrite (prefix_before_separator c old old_nonempty Hc d f).
    destruct (String.prefix old d) eqn:Hpre.
    + pose proof (prefix_length _ _ Hpre) as Hlen.
      rewrite drop_append by exact Hlen.
      rewrite IH by (rewrite drop_length; lia).
      now rewrite append_assoc.
    + destruct d as [|x d]; [rewrite !append_nil_l|rewrite !append_cons].
      * f_equal. apply replace_scan_fuel; lia.
      * f_equal. apply IH. simpl in Hd. lia.
Qed.

Lemma replace_separator (c : ascii) (d f : string) :
  PyStr.has_char c old = false ->
  PyStr.replace old new (d +:+ String c f)
  = PyStr.replace old new d +:+ String c (PyStr.replace old new f).
Proof.
  intros Hc. rewrite !replace_unfold.
  rewrite length_append. simpl String.length.
  now apply replace_scan_separator.
Qed.

(** Without an occurrence of the pattern the scan copies the string. *)
Lemma replace_scan_absent (n : nat) :
  forall s, PyStr.contains old s = false -> PyStr.replace_scan n old new s = s.
Proof.
  induction n as [|n IH]; intros s Habs; [reflexivity|].
  destruct s as [|x s]; [apply replace_scan_empty|].
  change (PyStr.contains old (String x s))
    with (String.prefix old (String x s) || PyStr.contains old s) in Habs.
  apply orb_false_iff in Habs. destruct Habs as [Hpre Habs].
  rewrite replace_scan_S, Hpre. f_equal. now apply IH.
Qed.

Lemma replace_absent (s : string) :
  PyStr.contains old s = false -> PyStr.replace old new s = s.
Proof. intros Habs. rewrite replace_unfold. now apply replace_scan_absent. Qed.

End Strings.

Section FirstCharacter.

Variables (a b : ascii) (old' new' : string).
Hypothesis first_differs : a <> b.

Let old := String a old'.
Let new := String b new'.

Lemma prefix_first (s : string) :
  String.prefix old s = true -> exists t, s = String a t.
Proof.
  destruct s as [|x t]; simpl; [discriminate|].
  destruct (ascii_dec a x) as [<-|]; [|discriminate]. now exists t.
Qed.

(** Where the pattern occurs, and the replacement starts with another
    character, the scan returns a different string. *)
Lemma replace_scan_changes (n : nat) :
  forall s,
    String.length s <= n ->
    PyStr.contains old s = true ->
    PyStr.replace_scan n old new s <> s.
Proof.
  assert (Hne : old <> "") by discriminate.
  induction n as [|n IH]; intros s Hn Hocc.
  - destruct s; simpl in Hn; [|lia]. simpl in Hocc. discriminate.
  - rewrite replace_scan_S. destruct (String.prefix old s) eqn:Hpre.
    + destruct (prefix_first s Hpre) as [t ->].
      unfold new. rewrite append_cons. intros Heq. injection Heq as Hab _.
      apply first_differs. now symmetry.
    + destruct s as [|x t].
      * simpl in Hocc. discriminate.
      * change (PyStr.contains old (String x t))
          with (String.prefix old (String x t) || PyStr.contains old t) in Hocc.
        rewrite Hpre in Hocc. simpl in Hocc, Hn.
        intros Heq. injection Heq as Heq. revert Heq. apply IH; [lia|exact Hocc].
Qed.

Lemma replace_changes (s : string) :
  PyStr.contains old s = true -> PyStr.replace old new s <> s.
Proof.
  intros Hocc. unfold PyStr.replace, old at 1.
  now apply replace_scan_changes.
Qed.

End FirstCharacter.

Lemma has_char_append (c : ascii) (s t : string) :
  PyStr.has_char c (s +:+ t) = PyStr.has_char c s || PyStr.has_char c t.
Proof.
  induction s as [|x s IH]; [reflexivity|].
  rewrite append_cons. simpl. rewrite IH. now rewrite orb_assoc.
Qed.

Lemma basename_plain (name : string) :
  PyStr.has_slash name = false -> PyStr.basename name = name.
Proof.
  destruct name as [|x t]; [reflexivity|].
  unfold PyStr.has_slash. simpl. intros Hs.
  apply orb_false_iff in Hs. destruct Hs as [Hx Ht].
  unfold PyStr.basename, PyStr.has_slash. now rewrite Ht, Hx.
Qed.

Lemma basename_under (dir name : string) :
  PyStr.has_slash name = false ->
  PyStr.basename (dir +:+ "/" +:+ name) = name.
Proof.
  intros Hname. induction dir as [|x dir IH].
  - rewrite append_nil_l. change ("/" +:+ name) with (String "/" name).
    unfold PyStr.basename. now rewrite Hname.
  - rewrite append_cons.
    change (PyStr.basename (String x (dir +:+ "/" +:+ name)))
      with (if PyStr.has_slash (dir +:+ "/" +:+ name)
            then PyStr.basename (dir +:+ "/" +:+ name)
            else if Ascii.eqb x PyStr.slash then dir +:+ "/" +:+ name
                 else String x (dir +:+ "/" +:+ name)).
    assert (Hs : PyStr.has_slash (dir +:+ "/" +:+ name) = true).
    { unfold PyStr.has_slash. rewrite has_char_append.
      change ("/" +:+ name) with (String "/" name). simpl.
      now rewrite orb_true_r. }
    now rewrite Hs.
Qed.

(** ** No [PHOT] is left behind *)

Section HeadForPhot.

Let scan (n : nat) (s : string) : string := PyStr.replace_scan n "PHOT" "HEAD" s.

Lemma scan_S (n : nat) (s : string) :
  scan (S n) s
  = if String.prefix "PHOT" s
    then "HEAD" +:+ scan n (PyStr.drop 4 s)
    else match s with
         | EmptyString => EmptyString
         | String x t => String x (scan n t)
         end.
Proof. reflexivity. Qed.

(** A piece [q] of the pattern shows at the head of the output only where
    it was at the head of the input. *)
Definition copied (q : string) : Prop :=
  forall n t, String.prefix q (scan n t) = true -> String.prefix q t = true.

Lemma copied_empty : copied "".
Proof. intros n t _. destruct t; reflexivity. Qed.

Lemma copied_cons (a : ascii) (q : string) :
  (forall r, String.prefix (String a q) ("HEAD" +:+ r) = false) ->
  copied q -> copied (String a q).
Proof.
  intros Hhead Hq n t Hpre.
  destruct n as [|n]; [exact Hpre|].
  rewrite scan_S in Hpre.
  destruct (String.prefix "PHOT" t) eqn:Hocc.
  - now rewrite Hhead in Hpre.
  - destruct t as [|x t]; [exact Hpre|].
    simpl in Hpre |- *.
    destruct (ascii_dec a x); [|discriminate].
    apply (Hq n t). exact Hpre.
Qed.

Lemma copied_HOT : copied "HOT".
Proof.
  apply copied_cons; [reflexivity|].
  apply copied_cons; [reflexivity|].
  apply copied_cons; [reflexivity|].
  apply copied_empty.
Qed.

Lemma scan_leaves_no_PHOT (n : nat) :
  forall s, String.length s <= n -> PyStr.contains "PHOT" (scan n s) = false.
Proof.
  induction n as [n IH] using lt_wf_ind. intros s Hlen.
  destruct n as [|n].
  - destruct s; simpl in Hlen; [reflexivity|lia].
  - rewrite scan_S. destruct (String.prefix "PHOT" s) eqn:Hocc.
    + pose proof (prefix_length _ _ Hocc) as Hfour. simpl in Hfour.
      assert (Hrest : PyStr.contains "PHOT" (scan n (PyStr.drop 4 s)) = false).
      { apply IH; [lia|]. rewrite drop_length. lia. }
      change ("HEAD" +:+ scan n (PyStr.drop 4 s))
        with (String "H" (String "E" (String "A" (String "D" (scan n (PyStr.drop 4 s)))))).
      simpl. exact Hrest.
    + destruct s as [|x t]; [reflexivity|].
      simpl in Hlen.
      assert (Hrest : PyStr.contains "PHOT" (scan n t) = false)
        by (apply IH; lia).
      change (PyStr.contains "PHOT" (String x (scan n t)))
        with (String.prefix "PHOT" (String x (scan n t))
              || PyStr.contains "PHOT" (scan n t)).
      rewrite Hrest, orb_false_r.
      destruct (String.prefix "PHOT" (String x (scan n t))) eqn:Hout; [|reflexivity].
      rewrite prefix_cons in Hout, Hocc.
      destruct (ascii_dec "P" x); [|discriminate].
      apply copied_HOT in Hout. congruence.
Qed.

End HeadForPhot.

(** The derived header path has no [PHOT] anywhere. *)
Lemma header_path_has_no_PHOT (fname : string) :
  PyStr.contains "PHOT" (header_path fname) = false.
Proof.
  unfold header_path, PyStr.replace. now apply scan_leaves_no_PHOT.
Qed.

(** ** The header path *)

(** C10. The header path is the whole input path with every [PHOT]
    rewritten: the directory part and the file name are rewritten
    separately, and a directory part that contains [PHOT] does not
    survive as it was. *)
Theorem header_path_rewrites_directories (dir file : string) :
  PyStr.contains "PHOT" dir = true ->
  header_path (dir +:+ "/" +:+ file)
  = PyStr.replace "PHOT" "HEAD" dir +:+ "/" +:+ PyStr.replace "PHOT" "HEAD" file /\
  PyStr.replace "PHOT" "HEAD" dir <> dir /\
  PyStr.contains "PHOT" (header_path (dir +:+ "/" +:+ file)) = false.
Proof.
  intros Hocc. split; [|split].
  - unfold header_path. change ("/" +:+ file) with (String "/" file).
    apply replace_separator; [discriminate|reflexivity].
  - apply (replace_changes "P" "H" "HOT" "EAD"); [discriminate|exact Hocc].
  - apply header_path_has_no_PHOT.
Qed.

Lemma header_path_rewrites_directories_witness :
  header_path ("PHOT_sims/v1" +:+ "/" +:+ "DES_PHOT.FITS.gz")
  = PyStr.replace "PHOT" "HEAD" "PHOT_sims/v1" +:+ "/"
      +:+ PyStr.replace "PHOT" "HEAD" "DES_PHOT.FITS.gz" /\
  PyStr.replace "PHOT" "HEAD" "PHOT_sims/v1" <> "PHOT_sims/v1" /\
  PyStr.contains "PHOT" (header_path ("PHOT_sims/v1" +:+ "/" +:+ "DES_PHOT.FITS.gz"))
  = false.
Proof.
  apply (header_path_rewrites_directories "PHOT_sims/v1" "DES_PHOT.FITS.gz").
  vm_compute. reflexivity.
Defined.

(** [read_fits] looks for the header under the rewritten directory, and
    nowhere else: a header file next to the photometry file is not found. *)
Example read_fits_header_beside_photometry :
  fst (read_fits "PHOT_sims/DES_PHOT.FITS.gz" false
         (World (<["PHOT_sims/DES_PHOT.FITS.gz" := Fits (PhotTable [obs_row 1 "u "])]>
                   {[ "PHOT_sims/DES_HEAD.FITS.gz" := Fits (HeadTable [head_of 7]) ]})
            ∅ [] []))
  = Raise FileNotFoundError /\
  header_path "PHOT_sims/DES_PHOT.FITS.gz" = "HEAD_sims/DES_HEAD.FITS.gz".
Proof. split; vm_compute; reflexivity. Qed.

(** ** Output names *)

Lemma contains_separator (c : ascii) (old d f : string) :
  old <> "" -> PyStr.has_char c old = false ->
  PyStr.contains old (d +:+ String c f) = PyStr.contains old d || PyStr.contains old f.
Proof.
  intros Hne Hc.
  assert (Hsep : String.prefix old (String c f) = false).
  { pose proof (prefix_before_separator c old Hne Hc "" f) as H.
    now rewrite append_nil_l, (prefix_empty old Hne) in H. }
  induction d as [|x d IH].
  - rewrite append_nil_l.
    change (PyStr.contains old (String c f))
      with (String.prefix old (String c f) || PyStr.contains old f).
    change (PyStr.contains old "") with (String.prefix old "" || false).
    now rewrite Hsep, (prefix_empty old Hne).
  - rewrite append_cons.
    change (PyStr.contains old (String x (d +:+ String c f)))
      with (String.prefix old (String x (d +:+ String c f))
            || PyStr.contains old (d +:+ String c f)).
    change (PyStr.contains old (String x d))
      with (String.prefix old (String x d) || PyStr.contains old d).
    rewrite IH. rewrite <- append_cons.
    rewrite (prefix_before_separator c old Hne Hc (String x d) f).
    now rewrite orb_assoc.
Qed.

(** For a compressed input [dir/<batch>_PHOT.FITS.gz] whose batch name is
    free of the two patterns, the driver computes [<batch>_HEAD.csv] and
    [<batch>_PHOT.csv] in the output directory. *)
Lemma csv_paths_compressed (output_dir dir batch : string) :
  PyStr.has_slash batch = false ->
  PyStr.contains "PHOT.FITS.gz" batch = false ->
  PyStr.contains ".FITS.gz" batch = false ->
  csv_metadata_path output_dir (dir +:+ "/" +:+ batch +:+ "_PHOT.FITS.gz")
  = PyStr.join output_dir (batch +:+ "_HEAD.csv") /\
  csv_lcdata_path output_dir (dir +:+ "/" +:+ batch +:+ "_PHOT.FITS.gz")
  = PyStr.join output_dir (batch +:+ "_PHOT.csv").
Proof.
  intros Hslash Hmeta Hlc.
  assert (Hbase : PyStr.basename (dir +:+ "/" +:+ batch +:+ "_PHOT.FITS.gz")
                  = batch +:+ "_PHOT.FITS.gz").
  { apply basename_under. unfold PyStr.has_slash in *.
    rewrite has_char_append, Hslash. reflexivity. }
  unfold csv_metadata_path, csv_lcdata_path. rewrite Hbase.
  change ("_PHOT.FITS.gz") with (String "_" "PHOT.FITS.gz").
  split; f_equal.
  - rewrite replace_separator by (discriminate || reflexivity).
    rewrite replace_absent by (discriminate || exact Hmeta). reflexivity.
  - rewrite replace_separator by (discriminate || reflexivity).
    rewrite replace_absent by (discriminate || exact Hlc). reflexivity.
Qed.

(** For an input stored without compression neither pattern occurs, and
    both outputs are named after the input itself. *)
Lemma csv_paths_uncompressed (output_dir dir batch : string) :
  PyStr.has_slash batch = false ->
  PyStr.contains "PHOT.FITS.gz" batch = false ->
  PyStr.contains ".FITS.gz" batch = false ->
  csv_metadata_path output_dir (dir +:+ "/" +:+ batch +:+ "_PHOT.FITS")
  = PyStr.join output_dir (batch +:+ "_PHOT.FITS") /\
  csv_lcdata_path output_dir (dir +:+ "/" +:+ batch +:+ "_PHOT.FITS")
  = PyStr.join output_dir (batch +:+ "_PHOT.FITS").
Proof.
  intros Hslash Hmeta Hlc.
  assert (Hbase : PyStr.basename (dir +:+ "/" +:+ batch +:+ "_PHOT.FITS")
                  = batch +:+ "_PHOT.FITS").
  { apply basename_under. unfold PyStr.has_slash in *.
    rewrite has_char_append, Hslash. reflexivity. }
  unfold csv_metadata_path, csv_lcdata_path. rewrite Hbase.
  change ("_PHOT.FITS") with (String "_" "PHOT.FITS").
  split; f_equal; apply replace_absent; try discriminate;
    rewrite contains_separator by (discriminate || reflexivity).
  - now rewrite Hmeta.
  - now rewrite Hlc.
Qed.

(** C7 on an input stored without compression: [DES_PHOT.FITS] passes the
    discovery filter of line 92, and the driver computes, for the header
    CSV and for the photometry CSV alike, the name of the input file, not
    [DES_HEAD.csv] and [DES_PHOT.csv]. *)
Theorem csv_paths_of_uncompressed_input :
  PyStr.contains "PHOT.FITS" "DES_PHOT.FITS" = true /\
  csv_metadata_path "out" "sim/DES_PHOT.FITS" = "out/DES_PHOT.FITS" /\
  csv_lcdata_path "out" "sim/DES_PHOT.FITS" = "out/DES_PHOT.FITS".
Proof. repeat split; vm_compute; reflexivity. Qed.

(** The same input stored compressed gets [DES_HEAD.csv] and [DES_PHOT.csv]. *)
Example csv_paths_of_compressed_input :
  csv_metadata_path "out" "sim/DES_PHOT.FITS.gz" = "out/DES_HEAD.csv" /\
  csv_lcdata_path "out" "sim/DES_PHOT.FITS.gz" = "out/DES_PHOT.csv".
Proof. split; vm_compute; reflexivity. Qed.

(** A run over the uncompressed batch: the photometry CSV lands on the
    path just written with the header CSV, and no [DES_HEAD.csv] or
    [DES_PHOT.csv] comes into being. *)
Example main_on_uncompressed_batch :
  let w := snd (main "sim" "out"
                  (plain_batch [obs_row 1 "u "; obs_row 2 "g "] [head_of 7])) in
  files w !! "out/DES_PHOT.FITS"
  = Some (Csv (PhotDf [(0, Phot.Row 7 1 (Int 0) 1 1); (1, Phot.Row 7 2 (Int 1) 1 1)])) /\
  files w !! "out/DES_HEAD.csv" = None /\
  files w !! "out/DES_PHOT.csv" = None.
Proof. repeat split; vm_compute; reflexivity. Qed.

(** * Further properties of the reader and the driver *)

(** ** What a normal return of [read_fits] means *)

Lemma normalise_stages (drop_separators : bool) (df_phot : frame raw_phot)
    (df_header : frame raw_head) :
  normalise drop_separators df_phot df_header
  = rbind (segment (column MJD df_phot) (column SNID (on_rows astype_SNID df_header)))
      (fun arr_ID =>
         Ok (on_rows head_row_of (on_rows astype_SNID df_header),
             on_rows recode (keep_rows in_vocabulary (tagged drop_separators df_phot arr_ID)),
             keep_rows (fun r => negb (in_vocabulary r))
               (tagged drop_separators df_phot arr_ID))).
Proof. reflexivity. Qed.

Lemma header_keys_column (hrows : list raw_head) :
  column SNID (on_rows astype_SNID (range_index hrows)) = header_keys hrows.
Proof.
  rewrite column_on_rows.
  apply (column_range_index (fun x => SNID (astype_SNID x)) hrows).
Qed.

(** The two ways [read_fits] returns: on an empty table, with that table
    twice and the header untouched; otherwise through [normalise]. *)
Lemma read_fits_returns (fname : string) (drop_separators : bool) (w w' : world)
    (hdr phot : DataFrame) :
  read_fits fname drop_separators w = (Ok (hdr, phot), w') ->
  (exists t,
     files w !! fname = Some (Fits t) /\ empty (to_pandas t) = true /\
     hdr = to_pandas t /\ phot = to_pandas t /\
     w' = World (files w) (dirs w) (opened w ++ [fname])%list
            (stdout w ++ [PrintEmpty])%list)
  \/
  (exists rows trimmed hrows ids,
     files w !! fname = Some (Fits (PhotTable rows)) /\ rows <> [] /\
     trim (range_index rows) = Ok trimmed /\
     files w !! header_path fname = Some (Fits (HeadTable hrows)) /\
     segment (column MJD trimmed) (header_keys hrows) = Ok ids /\
     hdr = HeadDf (on_rows head_row_of (on_rows astype_SNID (range_index hrows))) /\
     phot = PhotDf (on_rows recode
                      (keep_rows in_vocabulary (tagged drop_separators trimmed ids))) /\
     w' = after_reads w fname
            [PrintUnexpected
               (keep_rows (fun r => negb (in_vocabulary r))
                  (tagged drop_separators trimmed ids))]).
Proof.
  unfold read_fits, bind, Table_read.
  destruct (files w !! fname) as [f|] eqn:Hfile; [|discriminate].
  destruct f as [t| |]; try discriminate.
  destruct (empty (to_pandas t)) eqn:Hempty.
  - simpl. intros Heq. injection Heq as <- <- <-.
    left. exists t. repeat split; auto.
  - unfold lift.
    destruct (phot_frame (to_pandas t)) as [df0|e] eqn:Hframe; [|discriminate].
    destruct (trim df0) as [trimmed|e] eqn:Htrim; [|discriminate].
    simpl. fold (header_path fname).
    destruct (files w !! header_path fname) as [fh|] eqn:Hhead; [|discriminate].
    destruct fh as [th| |]; try discriminate.
    destruct (head_frame (to_pandas th)) as [dfh|e] eqn:Hhframe; [|discriminate].
    destruct t as [rows|rows]; simpl in Hframe; [|discriminate].
    injection Hframe as <-.
    destruct th as [hrows|hrows]; simpl in Hhframe; [discriminate|].
    injection Hhframe as <-.
    rewrite normalise_stages, header_keys_column.
    destruct (segment (column MJD trimmed) (header_keys hrows)) as [ids|e] eqn:Hseg;
      [|discriminate].
    simpl. intros Heq. injection Heq as <- <- <-.
    right. exists rows, trimmed, hrows, ids.
    assert (Hrows : rows <> []).
    { intros ->. unfold empty in Hempty. simpl in Hempty. discriminate. }
    unfold after_reads. rewrite <- !app_assoc. simpl.
    repeat split; auto.
Qed.

(** And back: with both tables in place, a frame that trims and a header
    with a row for every block, [read_fits] returns those frames. *)
Lemma read_fits_segmented (fname : string) (drop_separators : bool) (w : world)
    (rows : list raw_phot) (hrows : list raw_head) (trimmed : frame raw_phot)
    (ids : list Z) :
  files w !! fname = Some (Fits (PhotTable rows)) ->
  rows <> [] ->
  trim (range_index rows) = Ok trimmed ->
  files w !! header_path fname = Some (Fits (HeadTable hrows)) ->
  segment (column MJD trimmed) (header_keys hrows) = Ok ids ->
  read_fits fname drop_separators w
  = (Ok (HeadDf (on_rows head_row_of (on_rows astype_SNID (range_index hrows))),
         PhotDf (on_rows recode
                   (keep_rows in_vocabulary (tagged drop_separators trimmed ids)))),
     after_reads w fname
       [PrintUnexpected
          (keep_rows (fun r => negb (in_vocabulary r))
             (tagged drop_separators trimmed ids))]).
Proof.
  intros Hphot Hrows Htrim Hhead Hseg.
  rewrite (read_fits_normalise fname drop_separators w rows hrows trimmed)
    by assumption.
  rewrite normalise_stages, header_keys_column, Hseg. reflexivity.
Qed.

(** ** Trimming, in full *)

Lemma trim_none : trim (range_index []) = Raise IndexError.
Proof. reflexivity. Qed.

Lemma trim_one (r : raw_phot) :
  trim (range_index [r])
  = if is_sentinel (MJD r) then Raise IndexError else Ok [(0, r)].
Proof.
  unfold trim, trim_last, trim_first, at_last, at_pos. simpl.
  destruct (is_sentinel (MJD r)) eqn:Hr; simpl; [reflexivity|].
  now rewrite Hr.
Qed.

Lemma trim_two_or_more (first last : raw_phot) (middle : list raw_phot) :
  trim (range_index (first :: middle ++ [last])%list)
  = Ok ((if is_sentinel (MJD first) then [] else [(0, first)])
          ++ combine (seq 1 (length middle)) middle
          ++ (if is_sentinel (MJD last) then [] else [(S (length middle), last)]))%list.
Proof.
  rewrite range_index_ends.
  set (mid := combine (seq 1 (length middle)) middle).
  assert (Hmid : forall r, In r mid -> 1 <= fst r < 1 + length middle)
    by (intros r; apply combine_seq_label).
  unfold trim, trim_last, at_last.
  change ((0, first) :: mid ++ [(S (length middle), last)])%list
    with (((0, first) :: mid) ++ [(S (length middle), last)])%list.
  rewrite last_snoc. simpl rbind.
  destruct (is_sentinel (MJD last)) eqn:Hlast.
  - rewrite drop_label_app.
    rewrite (drop_label_fresh (S (length middle)) mid)
      by (intros r Hr; apply Hmid in Hr; lia).
    unfold drop_label at 1. simpl List.filter.
    rewrite Nat.eqb_refl. simpl. rewrite !app_nil_r.
    unfold trim_first, at_pos. simpl.
    destruct (is_sentinel (MJD first)) eqn:Hfirst; simpl; [|reflexivity].
    f_equal. apply drop_label_fresh. intros r Hr. apply Hmid in Hr. lia.
  - simpl. unfold trim_first, at_pos. simpl.
    destruct (is_sentinel (MJD first)) eqn:Hfirst; simpl; [|reflexivity].
    f_equal. rewrite drop_label_app.
    rewrite (drop_label_fresh 0 mid) by (intros r Hr; apply Hmid in Hr; lia).
    reflexivity.
Qed.

Lemma two_or_more {A : Type} (rows : list A) :
  2 <= length rows -> exists first middle last, rows = (first :: middle ++ [last])%list.
Proof.
  destruct rows as [|first rest]; simpl; [lia|].
  destruct rest as [|x rest _] using rev_ind; simpl; [lia|].
  intros _. now exists first, rest, x.
Qed.

Lemma keep_rows_app {A : Type} (p : A -> bool) (df1 df2 : frame A) :
  keep_rows p (df1 ++ df2)%list = (keep_rows p df1 ++ keep_rows p df2)%list.
Proof. unfold keep_rows. apply List.filter_app. Qed.

(** X1. Trimming never removes an observation: the rows with a timestamp
    other than [-777.0] are the same before and after, row for row, and
    at most two rows are gone. *)
Theorem trim_keeps_observations (rows : list raw_phot) (trimmed : frame raw_phot) :
  trim (range_index rows) = Ok trimmed ->
  keep_rows observation trimmed = keep_rows observation (range_index rows) /\
  length rows <= length trimmed + 2.
Proof.
  destruct rows as [|r0 rest]; [discriminate|].
  destruct rest as [|r1 rest].
  - rewrite trim_one. destruct (is_sentinel (MJD r0)); [discriminate|].
    intros Heq. injection Heq as <-. split; [reflexivity|simpl; lia].
  - destruct (two_or_more (r0 :: r1 :: rest)) as [first [middle [last Hrows]]];
      [simpl; lia|].
    rewrite Hrows, trim_two_or_more. intros Heq. injection Heq as <-.
    rewrite range_index_ends.
    change ((0, first) :: combine (seq 1 (length middle)) middle
              ++ [(S (length middle), last)])%list
      with ([(0, first)] ++ combine (seq 1 (length middle)) middle
              ++ [(S (length middle), last)])%list.
    rewrite !keep_rows_app, !length_app, length_combine, length_seq.
    split.
    + unfold observation.
      destruct (is_sentinel (MJD first)) eqn:Hfirst;
        destruct (is_sentinel (MJD last)) eqn:Hlast;
        unfold keep_rows; simpl; rewrite ?Hfirst, ?Hlast; reflexivity.
    + simpl. rewrite ?length_app. simpl.
      destruct (is_sentinel (MJD first)); destruct (is_sentinel (MJD last));
        simpl; lia.
Qed.

Lemma trim_keeps_observations_witness :
  keep_rows observation
    [(1, obs_row 5 "u "); (2, sep_row); (3, obs_row 6 "g ")]
  = keep_rows observation
      (range_index [sep_row; obs_row 5 "u "; sep_row; obs_row 6 "g "; sep_row]) /\
  length [sep_row; obs_row 5 "u "; sep_row; obs_row 6 "g "; sep_row]
  <= length [(1, obs_row 5 "u "); (2, sep_row); (3, obs_row 6 "g ")] + 2.
Proof.
  apply (trim_keeps_observations
           [sep_row; obs_row 5 "u "; sep_row; obs_row 6 "g "; sep_row]).
  vm_compute. reflexivity.
Defined.

(** X2. Trimming fails on two inputs only, the table without rows and the
    table of one separator row, and then with [IndexError]. *)
Theorem trim_raises_iff (rows : list raw_phot) :
  (forall e, trim (range_index rows) = Raise e -> e = IndexError) /\
  (trim (range_index rows) = Raise IndexError <->
   rows = [] \/ exists r, rows = [r] /\ is_sentinel (MJD r) = true).
Proof.
  destruct rows as [|r0 rest].
  - rewrite trim_none. split.
    + intros e Heq. now injection Heq as <-.
    + split; [now left|reflexivity].
  - destruct rest as [|r1 rest].
    + rewrite trim_one. destruct (is_sentinel (MJD r0)) eqn:Hr0.
      * split; [intros e Heq; now injection Heq as <-|].
        split; [|reflexivity]. intros _. right. now exists r0.
      * split; [discriminate|].
        split; [discriminate|].
        intros [Hnil|[r [Heq Hr]]]; [discriminate|].
        injection Heq as <-. congruence.
    + destruct (two_or_more (r0 :: r1 :: rest)) as [first [middle [last Hrows]]];
        [simpl; lia|].
      rewrite Hrows, trim_two_or_more.
      split; [discriminate|].
      split; [discriminate|].
      intros [Hnil|[r [Heq _]]]; [discriminate|].
      injection Heq as _ Hmiddle. destruct middle; discriminate.
Qed.

(** ** Keys handed out by the segmentation *)

Lemma count_sentinel_take (mjds : list float) :
  forall n, count_sentinel (take n mjds) <= count_sentinel mjds.
Proof.
  induction mjds as [|m rest IH]; intros n; destruct n; simpl; try lia.
  specialize (IH n). lia.
Qed.

Lemma assign_keys_lookup (snid : list Z) (mjds : list float) :
  forall k i,
    i < length mjds ->
    assign_keys snid k mjds !! i
    = Some (nth (k + count_sentinel (take (S i) mjds)) snid 0%Z).
Proof.
  induction mjds as [|m rest IH]; intros k i Hi; simpl in Hi; [lia|].
  destruct i as [|i].
  - simpl. destruct (is_sentinel m); do 2 f_equal; lia.
  - change (assign_keys snid k (m :: rest) !! S i)
      with (assign_keys snid (if is_sentinel m then S k else k) rest !! i).
    rewrite IH by lia.
    change (take (S (S i)) (m :: rest)) with (m :: take (S i) rest).
    simpl count_sentinel.
    destruct (is_sentinel m); do 2 f_equal; lia.
Qed.

Lemma assign_keys_in (snid : list Z) (mjds : list float) :
  forall k z,
    k + count_sentinel mjds < length snid ->
    In z (assign_keys snid k mjds) -> In z snid.
Proof.
  induction mjds as [|m rest IH]; intros k z Hk Hz; simpl in *; [contradiction|].
  destruct Hz as [<-|Hz].
  - apply nth_In. destruct (is_sentinel m); lia.
  - apply (IH _ z) in Hz; [exact Hz|]. destruct (is_sentinel m); lia.
Qed.

(** X3. When segmentation returns, it returns one identifier per row, and
    the identifier of row [i] is the header key whose position is the
    number of separators among the rows up to and including [i]. *)
Theorem segment_assigns_by_count (mjds : list float) (snid ids : list Z) :
  segment mjds snid = Ok ids ->
  length ids = length mjds /\
  forall i, i < length mjds ->
            exists key, snid !! count_sentinel (take (S i) mjds) = Some key /\
                        ids !! i = Some key.
Proof.
  intros Hids.
  assert (Hkeys : count_sentinel mjds < length snid)
    by (apply segment_returns_iff; now exists ids).
  rewrite segment_assign_keys in Hids by exact Hkeys. injection Hids as <-.
  split; [apply assign_keys_length|].
  intros i Hi. rewrite assign_keys_lookup by exact Hi. simpl.
  exists (nth (count_sentinel (take (S i) mjds)) snid 0%Z).
  split; [|reflexivity].
  pose proof (count_sentinel_take mjds (S i)) as Hle.
  destruct (nth_lookup_or_length snid (count_sentinel (take (S i) mjds)) 0%Z)
    as [Hnth|Hlen]; [exact Hnth|lia].
Qed.

Lemma segment_assigns_by_count_witness :
  length [7; 7; 8; 8; 9]%Z = length [1%float; 2%float; sentinel; 3%float; sentinel] /\
  forall i, i < length [1%float; 2%float; sentinel; 3%float; sentinel] ->
            exists key,
              [7; 8; 9]%Z
                !! count_sentinel (take (S i) [1%float; 2%float; sentinel; 3%float; sentinel])
              = Some key /\
              [7; 7; 8; 8; 9]%Z !! i = Some key.
Proof.
  apply (segment_assigns_by_count [1%float; 2%float; sentinel; 3%float; sentinel]
           [7; 8; 9]%Z [7; 7; 8; 8; 9]%Z).
  vm_compute. reflexivity.
Defined.

(** ** The returned tables *)

Lemma in_with_column_id {A : Type} (df : frame A) (arr : list Z) (l : nat) (z : Z) (x : A) :
  In (l, (z, x)) (with_column df arr) -> In z arr.
Proof.
  unfold with_column. rewrite in_map_iff.
  intros [[[l' x'] z'] [Heq Hin]]. simpl in Heq. injection Heq as <- <- <-.
  now apply in_combine_r in Hin.
Qed.

(** A row of the renamed frame is a row of the trimmed frame with an
    identifier of the array. *)
Lemma in_tagged (drop_separators : bool) (df : frame raw_phot) (ids : list Z)
    (l : nat) (r : Phot.row) :
  In (l, r) (tagged drop_separators df ids) ->
  exists z raw, r = phot_row_of (z, raw) /\ In z ids /\ In (l, raw) df /\
                (drop_separators = true -> is_sentinel (MJD raw) = false).
Proof.
  unfold tagged. intros Hin. apply in_on_rows in Hin.
  destruct Hin as [[z raw] [-> Hin]]. exists z, raw.
  destruct drop_separators.
  - apply in_keep_rows in Hin. destruct Hin as [Hin Hobs]. simpl in Hobs.
    apply negb_true_iff in Hobs.
    repeat split; eauto using in_with_column_id, in_with_column.
  - repeat split; eauto using in_with_column_id, in_with_column. discriminate.
Qed.

Lemma in_returned_rows (drop_separators : bool) (df : frame raw_phot) (ids : list Z)
    (l : nat) (r : Phot.row) :
  In (l, r) (on_rows recode (keep_rows in_vocabulary (tagged drop_separators df ids))) ->
  exists z raw n,
    In z ids /\ In (l, raw) df /\ passband_dict !! FLT raw = Some n /\
    r = Phot.Row z (MJD raw) (Int n) (FLUXCAL raw) (FLUXCALERR raw) /\
    (drop_separators = true -> is_sentinel (MJD raw) = false).
Proof.
  intros Hin. apply in_on_rows in Hin. destruct Hin as [r0 [-> Hin]].
  apply in_keep_rows in Hin. destruct Hin as [Hin Hvoc].
  apply in_tagged in Hin. destruct Hin as [z [raw [-> [Hz [Hraw Hdrop]]]]].
  unfold in_vocabulary in Hvoc. simpl in Hvoc.
  destruct (replace_passband_code _ Hvoc) as [b [n [Hb [Hn [Hrep _]]]]].
  simpl in Hb. injection Hb as <-.
  exists z, raw, n. repeat split; try assumption.
  unfold recode. simpl. simpl in Hrep. now rewrite Hrep.
Qed.

Lemma header_object_ids (hrows : list raw_head) :
  column Head.object_id (on_rows head_row_of (on_rows astype_SNID (range_index hrows)))
  = header_keys hrows.
Proof.
  rewrite !column_on_rows.
  apply (column_range_index (fun x => Head.object_id (head_row_of (astype_SNID x)))).
Qed.

(** An identifier of a returned row is one of the keys the loop drew
    from. *)
Lemma returned_id_is_key (drop_separators : bool) (trimmed : frame raw_phot)
    (keys ids : list Z) (l : nat) (r : Phot.row) :
  segment (column MJD trimmed) keys = Ok ids ->
  In (l, r) (on_rows recode (keep_rows in_vocabulary (tagged drop_separators trimmed ids))) ->
  In (Phot.object_id r) keys.
Proof.
  intros Hseg Hin.
  destruct (in_returned_rows _ _ _ _ _ Hin) as [z [raw [n [Hz [_ [_ [-> _]]]]]]].
  simpl.
  assert (Hkeys : count_sentinel (column MJD trimmed) < length keys)
    by (apply segment_returns_iff; now exists ids).
  rewrite segment_assign_keys in Hseg by exact Hkeys. injection Hseg as <-.
  apply (assign_keys_in keys (column MJD trimmed) 0 z);
    [simpl; exact Hkeys|exact Hz].
Qed.

(** X4. Every [object_id] of the photometry table [read_fits] returns is
    an [object_id] of the header table it returns with it. *)
Theorem photometry_ids_in_header (fname : string) (drop_separators : bool)
    (w w' : world) (hdr phot : DataFrame) (l : nat) (r : Phot.row) :
  read_fits fname drop_separators w = (Ok (hdr, phot), w') ->
  In (l, r) (phot_rows phot) ->
  In (Phot.object_id r) (column Head.object_id (head_rows hdr)).
Proof.
  intros Hread Hin.
  destruct (read_fits_returns _ _ _ _ _ _ Hread)
    as [[t [_ [_ [_ [-> _]]]]] | [rows [trimmed [hrows [ids Hcase]]]]].
  - destruct t; contradiction.
  - destruct Hcase as [_ [_ [_ [_ [Hseg [-> [-> _]]]]]]]. simpl in *.
    rewrite header_object_ids.
    exact (returned_id_is_key _ _ _ _ _ _ Hseg Hin).
Qed.

Lemma photometry_ids_in_header_witness :
  In (Phot.object_id (Phot.Row 8 3 (Int 2) 1 1))
    (column Head.object_id
       (head_rows (HeadDf [(0, head_row_of (astype_SNID (head_of 7)));
                           (1, head_row_of (astype_SNID (head_of 8)))]))).
Proof.
  apply (photometry_ids_in_header "sim/DES_PHOT.FITS.gz" false
           (batch [obs_row 1 "u "; sep_row; obs_row 3 "r "] [head_of 7; head_of 8])
           (snd (read_fits "sim/DES_PHOT.FITS.gz" false
                   (batch [obs_row 1 "u "; sep_row; obs_row 3 "r "]
                      [head_of 7; head_of 8])))
           (HeadDf [(0, head_row_of (astype_SNID (head_of 7)));
                    (1, head_row_of (astype_SNID (head_of 8)))])
           (PhotDf [(0, Phot.Row 7 1 (Int 0) 1 1); (2, Phot.Row 8 3 (Int 2) 1 1)])
           2 (Phot.Row 8 3 (Int 2) 1 1)).
  - vm_compute. reflexivity.
  - simpl. right. left. reflexivity.
Defined.

Lemma lookup_combine_seq {A : Type} (rows : list A) :
  forall a i x,
    rows !! i = Some x -> combine (seq a (length rows)) rows !! i = Some (a + i, x).
Proof.
  induction rows as [|y rest IH]; intros a i x Hx; [discriminate|].
  destruct i as [|i]; simpl in *.
  - injection Hx as <-. now rewrite Nat.add_0_r.
  - rewrite (IH (S a) i x Hx). do 2 f_equal. lia.
Qed.

Lemma lookup_on_rows {A B : Type} (f : A -> B) (df : frame A) :
  forall i l x, df !! i = Some (l, x) -> on_rows f df !! i = Some (l, f x).
Proof.
  induction df as [|r rest IH]; intros i l x Hx; [discriminate|].
  destruct i as [|i]; simpl in *.
  - now injection Hx as ->.
  - now apply IH.
Qed.

(** X5. The header table comes back with one row for every row of the
    header file, in file order and under the position as label, whether
    or not any photometry row points to it: the key cast to 32 bits, the
    class code collapsed, the four physical columns copied. *)
Theorem header_rows_returned (fname : string) (drop_separators : bool)
    (w w' : world) (hdr : frame Head.row) (phot : DataFrame) :
  read_fits fname drop_separators w = (Ok (HeadDf hdr, phot), w') ->
  exists hrows,
    files w !! header_path fname = Some (Fits (HeadTable hrows)) /\
    length hdr = length hrows /\
    forall i h,
      hrows !! i = Some h ->
      hdr !! i
      = Some (i, Head.Row (astype_int32 (SNID h)) (replace_target (SNTYPE h))
                   (PEAKMJD h) (REDSHIFT_FINAL h) (REDSHIFT_FINAL_ERR h) (MWEBV h)).
Proof.
  intros Hread.
  destruct (read_fits_returns _ _ _ _ _ _ Hread)
    as [[t [_ [_ [Ht _]]]] | [rows [trimmed [hrows [ids Hcase]]]]].
  - destruct t; discriminate.
  - destruct Hcase as [_ [_ [_ [Hhead [_ [Hhdr _]]]]]].
    injection Hhdr as ->. exists hrows.
    split; [exact Hhead|].
    split; [now rewrite !on_rows_length, range_index_length|].
    intros i h Hh.
    apply (lookup_combine_seq hrows 0) in Hh. simpl in Hh.
    apply (lookup_on_rows astype_SNID) in Hh.
    apply (lookup_on_rows head_row_of) in Hh. exact Hh.
Qed.

Lemma header_rows_returned_witness :
  exists hrows,
    files (batch [obs_row 1 "X "] [head_of 7; head_of 8])
      !! header_path "sim/DES_PHOT.FITS.gz" = Some (Fits (HeadTable hrows)) /\
    length [(0, head_row_of (astype_SNID (head_of 7)));
            (1, head_row_of (astype_SNID (head_of 8)))] = length hrows /\
    forall i h,
      hrows !! i = Some h ->
      [(0, head_row_of (astype_SNID (head_of 7)));
       (1, head_row_of (astype_SNID (head_of 8)))] !! i
      = Some (i, Head.Row (astype_int32 (SNID h)) (replace_target (SNTYPE h))
                   (PEAKMJD h) (REDSHIFT_FINAL h) (REDSHIFT_FINAL_ERR h) (MWEBV h)).
Proof.
  apply (header_rows_returned "sim/DES_PHOT.FITS.gz" false
           (batch [obs_row 1 "X "] [head_of 7; head_of 8])
           (snd (read_fits "sim/DES_PHOT.FITS.gz" false
                   (batch [obs_row 1 "X "] [head_of 7; head_of 8])))
           [(0, head_row_of (astype_SNID (head_of 7)));
            (1, head_row_of (astype_SNID (head_of 8)))]
           (PhotDf [])).
  vm_compute. reflexivity.
Defined.

Lemma replace_target_not_key (t : Z) : target_dict !! replace_target t = None.
Proof.
  unfold replace_target. destruct (target_dict !! t) as [v|] eqn:Ht; simpl; [|exact Ht].
  unfold target_dict in Ht. apply elem_of_list_to_map_2 in Ht.
  repeat (apply elem_of_cons in Ht as [Ht|Ht];
          [injection Ht as _ ->; vm_compute; reflexivity|]).
  now apply elem_of_nil in Ht.
Qed.

(** X6. No class code of the returned header table is one of the twenty
    codes the table of line 61 collapses; collapsing it again changes
    nothing. *)
Theorem returned_targets_collapsed (fname : string) (drop_separators : bool)
    (w w' : world) (hdr phot : DataFrame) (l : nat) (r : Head.row) :
  read_fits fname drop_separators w = (Ok (hdr, phot), w') ->
  In (l, r) (head_rows hdr) ->
  target_dict !! Head.true_target r = None /\
  replace_target (Head.true_target r) = Head.true_target r.
Proof.
  intros Hread Hin.
  assert (Hnone : target_dict !! Head.true_target r = None).
  { destruct (read_fits_returns _ _ _ _ _ _ Hread)
      as [[t [_ [_ [-> _]]]] | [rows [trimmed [hrows [ids Hcase]]]]].
    - destruct t; contradiction.
    - destruct Hcase as [_ [_ [_ [_ [_ [-> _]]]]]]. simpl in Hin.
      apply in_on_rows in Hin. destruct Hin as [h [-> _]]. simpl.
      apply replace_target_not_key. }
  split; [exact Hnone|]. unfold replace_target. now rewrite Hnone.
Qed.

Lemma returned_targets_collapsed_witness :
  target_dict !! Head.true_target (head_row_of (astype_SNID (head_of 7))) = None /\
  replace_target (Head.true_target (head_row_of (astype_SNID (head_of 7))))
  = Head.true_target (head_row_of (astype_SNID (head_of 7))).
Proof.
  apply (returned_targets_collapsed "sim/DES_PHOT.FITS.gz" false
           (batch [obs_row 1 "u "] [head_of 7])
           (snd (read_fits "sim/DES_PHOT.FITS.gz" false
                   (batch [obs_row 1 "u "] [head_of 7])))
           (HeadDf [(0, head_row_of (astype_SNID (head_of 7)))])
           (PhotDf [(0, Phot.Row 7 1 (Int 0) 1 1)])
           0 (head_row_of (astype_SNID (head_of 7)))).
  - vm_compute. reflexivity.
  - simpl. left. reflexivity.
Defined.

Lemma astype_int32_range (z : Z) : int32_range (astype_int32 z).
Proof.
  unfold int32_range, astype_int32.
  pose proof (Z.mod_pos_bound (z + 2 ^ 31) (2 ^ 32) ltac:(lia)). lia.
Qed.

Lemma astype_int32_id (z : Z) : int32_range z -> astype_int32 z = z.
Proof.
  unfold int32_range, astype_int32. intros Hz.
  rewrite Z.mod_small by lia. lia.
Qed.

Lemma header_keys_range (hrows : list raw_head) (z : Z) :
  In z (header_keys hrows) -> int32_range z.
Proof.
  unfold header_keys. rewrite in_map_iff. intros [h [<- _]].
  apply astype_int32_range.
Qed.

(** X7. Every [object_id] that [read_fits] returns, in the header table
    and in the photometry table, is a 32-bit signed value. *)
Theorem returned_ids_int32 (fname : string) (drop_separators : bool)
    (w w' : world) (hdr phot : DataFrame) :
  read_fits fname drop_separators w = (Ok (hdr, phot), w') ->
  (forall l r, In (l, r) (head_rows hdr) -> int32_range (Head.object_id r)) /\
  (forall l r, In (l, r) (phot_rows phot) -> int32_range (Phot.object_id r)).
Proof.
  intros Hread.
  destruct (read_fits_returns _ _ _ _ _ _ Hread)
    as [[t [_ [_ [-> [-> _]]]]] | [rows [trimmed [hrows [ids Hcase]]]]].
  - split; intros l r Hin; destruct t; contradiction.
  - destruct Hcase as [_ [_ [_ [_ [Hseg [-> [-> _]]]]]]]. simpl. split.
    + intros l r Hin. apply in_on_rows in Hin. destruct Hin as [h [-> Hin]].
      apply in_on_rows in Hin. destruct Hin as [h0 [-> _]]. simpl.
      apply astype_int32_range.
    + intros l r Hin. apply (header_keys_range hrows).
      exact (returned_id_is_key _ _ _ _ _ _ Hseg Hin).
Qed.

Lemma returned_ids_int32_witness :
  (forall l r,
      In (l, r) (head_rows (HeadDf [(0, head_row_of (astype_SNID (head_of 7)))])) ->
      int32_range (Head.object_id r)) /\
  (forall l r,
      In (l, r) (phot_rows (PhotDf [(0, Phot.Row 7 1 (Int 0) 1 1)])) ->
      int32_range (Phot.object_id r)).
Proof.
  apply (returned_ids_int32 "sim/DES_PHOT.FITS.gz" false
           (batch [obs_row 1 "u "] [head_of 7])
           (snd (read_fits "sim/DES_PHOT.FITS.gz" false
                   (batch [obs_row 1 "u "] [head_of 7])))).
  vm_compute. reflexivity.
Defined.

(** ** The flag [drop_separators] *)

Lemma returned_rows_drop (wc : frame (Z * raw_phot)) :
  on_rows recode
    (keep_rows in_vocabulary
       (on_rows phot_row_of
          (keep_rows (fun r => negb (is_sentinel (MJD (snd r)))) wc)))
  = keep_rows (fun r => negb (is_sentinel (Phot.mjd r)))
      (on_rows recode (keep_rows in_vocabulary (on_rows phot_row_of wc))).
Proof.
  induction wc as [|[l [z raw]] rest IH]; [reflexivity|].
  unfold keep_rows, on_rows in *. simpl.
  destruct (is_sentinel (MJD raw)) eqn:Hsent; simpl;
    destruct (in_vocabulary (phot_row_of (z, raw))) eqn:Hvoc; simpl;
    rewrite ?Hsent; simpl; rewrite ?Hvoc; simpl; now rewrite IH.
Qed.

(** X8. The flag does one thing: called with [drop_separators=True],
    [read_fits] returns the header table of the default call and the
    photometry table of the default call without its rows at [-777.0]. *)
Theorem drop_separators_only_filters (fname : string) (w w1 : world)
    (hdr : frame Head.row) (phot : frame Phot.row) :
  read_fits fname false w = (Ok (HeadDf hdr, PhotDf phot), w1) ->
  exists w2,
    read_fits fname true w
    = (Ok (HeadDf hdr,
           PhotDf (keep_rows (fun r => negb (is_sentinel (Phot.mjd r))) phot)), w2).
Proof.
  intros Hread.
  destruct (read_fits_returns _ _ _ _ _ _ Hread)
    as [[t [_ [_ [Ht _]]]] | [rows [trimmed [hrows [ids Hcase]]]]].
  - destruct t; discriminate.
  - destruct Hcase as [Hphot [Hrows [Htrim [Hhead [Hseg [Hhdr [Hrows' _]]]]]]].
    injection Hhdr as ->. injection Hrows' as ->.
    eexists.
    rewrite (read_fits_segmented fname true w rows hrows trimmed ids) by assumption.
    unfold tagged. rewrite returned_rows_drop. reflexivity.
Qed.

Lemma drop_separators_only_filters_witness :
  exists w2,
    read_fits "sim/DES_PHOT.FITS.gz" true
      (batch [obs_row 1 "u "; RawPhotRow sentinel "g " 0 0; obs_row 3 "r "]
         [head_of 7; head_of 8])
    = (Ok (HeadDf [(0, head_row_of (astype_SNID (head_of 7)));
                   (1, head_row_of (astype_SNID (head_of 8)))],
           PhotDf (keep_rows (fun r => negb (is_sentinel (Phot.mjd r)))
                     [(0, Phot.Row 7 1 (Int 0) 1 1);
                      (1, Phot.Row 8 sentinel (Int 1) 0 0);
                      (2, Phot.Row 8 3 (Int 2) 1 1)])), w2).
Proof.
  apply (drop_separators_only_filters "sim/DES_PHOT.FITS.gz"
           (batch [obs_row 1 "u "; RawPhotRow sentinel "g " 0 0; obs_row 3 "r "]
              [head_of 7; head_of 8])
           (snd (read_fits "sim/DES_PHOT.FITS.gz" false
                   (batch [obs_row 1 "u "; RawPhotRow sentinel "g " 0 0; obs_row 3 "r "]
                      [head_of 7; head_of 8])))).
  vm_compute. reflexivity.
Defined.

(** ** Returned or reported *)

Lemma with_column_kept (p : raw_phot -> bool) (df : frame raw_phot) :
  forall ids,
    length ids = length df ->
    length (keep_rows (fun r => p (snd r)) (with_column df ids))
    = length (keep_rows p df).
Proof.
  unfold keep_rows, with_column.
  induction df as [|[l raw] rest IH]; intros ids Hlen; destruct ids as [|z ids];
    simpl in *; try lia.
  destruct (p raw); simpl; rewrite IH by lia; reflexivity.
Qed.

Lemma with_column_length {A : Type} (df : frame A) (ids : list Z) :
  length ids = length df -> length (with_column df ids) = length df.
Proof.
  intros Hlen. unfold with_column. rewrite length_map, length_combine. lia.
Qed.

Lemma tagged_length (drop_separators : bool) (df : frame raw_phot) (ids : list Z) :
  length ids = length df ->
  length (tagged drop_separators df ids)
  = length (if drop_separators then keep_rows observation df else df).
Proof.
  intros Hlen. unfold tagged. rewrite on_rows_length.
  destruct drop_separators.
  - apply (with_column_kept observation df ids Hlen).
  - now apply with_column_length.
Qed.

Lemma keep_rows_partition {A : Type} (p : A -> bool) (df : frame A) :
  length (keep_rows p df) + length (keep_rows (fun r => negb (p r)) df) = length df.
Proof.
  unfold keep_rows. apply (List.filter_length (fun r => p (snd r))).
Qed.

(** X9. No row is lost without a trace: the rows left after trimming (and
    after the removal of separators, when that is asked for) are either
    returned or reported on standard output, and a reported row stems
    from a trimmed row whose band code is outside the vocabulary. *)
Theorem rows_returned_or_reported (fname : string) (drop_separators : bool)
    (w w' : world) (rows : list raw_phot) (trimmed : frame raw_phot)
    (hdr : frame Head.row) (phot : frame Phot.row) :
  files w !! fname = Some (Fits (PhotTable rows)) ->
  trim (range_index rows) = Ok trimmed ->
  read_fits fname drop_separators w = (Ok (HeadDf hdr, PhotDf phot), w') ->
  exists report,
    stdout w' = (stdout w ++ [PrintUnexpected report])%list /\
    length phot + length report
    = length (if drop_separators then keep_rows observation trimmed else trimmed) /\
    forall l r, In (l, r) report ->
                exists raw, In (l, raw) trimmed /\ passband_dict !! FLT raw = None /\
                            Phot.mjd r = MJD raw.
Proof.
  intros Hfile Htrim Hread.
  destruct (read_fits_returns _ _ _ _ _ _ Hread)
    as [[t [_ [_ [Ht _]]]] | [rows' [trimmed' [hrows [ids Hcase]]]]].
  - destruct t; discriminate.
  - destruct Hcase as [Hfile' [_ [Htrim' [_ [Hseg [_ [Hphot ->]]]]]]].
    rewrite Hfile in Hfile'. injection Hfile' as <-.
    rewrite Htrim in Htrim'. injection Htrim' as <-.
    injection Hphot as ->.
    eexists. split; [reflexivity|].
    assert (Hlen : length ids = length trimmed).
    { assert (Hkeys : count_sentinel (column MJD trimmed) < length (header_keys hrows))
        by (apply segment_returns_iff; now exists ids).
      rewrite segment_assign_keys in Hseg by exact Hkeys. injection Hseg as <-.
      now rewrite assign_keys_length, column_length. }
    split.
    + rewrite on_rows_length, keep_rows_partition. now apply tagged_length.
    + intros l r Hin. apply in_keep_rows in Hin. destruct Hin as [Hin Hvoc].
      apply in_tagged in Hin. destruct Hin as [z [raw [-> [_ [Hraw _]]]]].
      exists raw. split; [exact Hraw|]. split; [|reflexivity].
      simpl in Hvoc. apply negb_true_iff in Hvoc.
      unfold in_vocabulary, isin_passband in Hvoc. simpl in Hvoc.
      apply bool_decide_eq_false in Hvoc.
      destruct (passband_dict !! FLT raw) as [n|] eqn:Hn; [|reflexivity].
      exfalso. apply Hvoc. now exists n.
Qed.

Lemma rows_returned_or_reported_witness :
  exists report,
    stdout (snd (read_fits "sim/DES_PHOT.FITS.gz" false
                   (batch [obs_row 1 "u "; obs_row 2 "X "; sep_row; obs_row 3 "r "]
                      [head_of 7; head_of 8])))
    = (stdout (batch [obs_row 1 "u "; obs_row 2 "X "; sep_row; obs_row 3 "r "]
                 [head_of 7; head_of 8])
         ++ [PrintUnexpected report])%list /\
    length [(0, Phot.Row 7 1 (Int 0) 1 1); (3, Phot.Row 8 3 (Int 2) 1 1)]
      + length report
    = length (if false
              then keep_rows observation
                     (range_index [obs_row 1 "u "; obs_row 2 "X "; sep_row; obs_row 3 "r "])
              else range_index [obs_row 1 "u "; obs_row 2 "X "; sep_row; obs_row 3 "r "]) /\
    forall l r, In (l, r) report ->
                exists raw,
                  In (l, raw)
                    (range_index [obs_row 1 "u "; obs_row 2 "X "; sep_row; obs_row 3 "r "]) /\
                  passband_dict !! FLT raw = None /\ Phot.mjd r = MJD raw.
Proof.
  apply (rows_returned_or_reported "sim/DES_PHOT.FITS.gz" false
           (batch [obs_row 1 "u "; obs_row 2 "X "; sep_row; obs_row 3 "r "]
              [head_of 7; head_of 8])
           _ [obs_row 1 "u "; obs_row 2 "X "; sep_row; obs_row 3 "r "]
           (range_index [obs_row 1 "u "; obs_row 2 "X "; sep_row; obs_row 3 "r "])
           [(0, head_row_of (astype_SNID (head_of 7)));
            (1, head_row_of (astype_SNID (head_of 8)))]
           [(0, Phot.Row 7 1 (Int 0) 1 1); (3, Phot.Row 8 3 (Int 2) 1 1)]).
  - vm_compute. reflexivity.
  - vm_compute. reflexivity.
  - vm_compute. reflexivity.
Defined.

(** ** Errors of the reader *)

(** X10. When the photometry table has rows left to pair and no file is
    at the derived header path, [read_fits] raises [FileNotFoundError]
    after reading the photometry file only, and an iteration of the
    driver on that input ends with the same error and no file written. *)
Theorem missing_header_raises (output_dir fname : string) (drop_separators : bool)
    (w : world) (rows : list raw_phot) (trimmed : frame raw_phot) :
  files w !! fname = Some (Fits (PhotTable rows)) ->
  rows <> [] ->
  trim (range_index rows) = Ok trimmed ->
  files w !! header_path fname = None ->
  exists_at w (csv_metadata_path output_dir fname) = false ->
  read_fits fname drop_separators w
  = (Raise FileNotFoundError,
     World (files w) (dirs w) (opened w ++ [fname])%list (stdout w)) /\
  fst (convert output_dir fname w) = Raise FileNotFoundError /\
  files (snd (convert output_dir fname w)) = files w.
Proof.
  intros Hphot Hrows Htrim Hhead Hfresh.
  assert (Hread : forall d w0,
            files w0 = files w ->
            read_fits fname d w0
            = (Raise FileNotFoundError,
               World (files w0) (dirs w0) (opened w0 ++ [fname])%list (stdout w0))).
  { intros d w0 Hw0.
    assert (Hphot0 : files w0 !! fname = Some (Fits (PhotTable rows)))
      by (rewrite Hw0; exact Hphot).
    unfold read_fits, bind, Table_read. rewrite Hphot0.
    assert (Hne : empty (to_pandas (PhotTable rows)) = false).
    { unfold empty. simpl. rewrite range_index_length.
      destruct rows; [contradiction|reflexivity]. }
    rewrite Hne. simpl. unfold lift. rewrite Htrim. simpl.
    fold (header_path fname). rewrite Hw0, Hhead. reflexivity. }
  split; [now apply Hread|].
  unfold convert, bind, path_exists. rewrite Hfresh. unfold print.
  rewrite Hread by reflexivity. split; reflexivity.
Qed.

Lemma missing_header_raises_witness :
  read_fits "sim/DES_PHOT.FITS.gz" false
    (one_file "sim/DES_PHOT.FITS.gz" (Fits (PhotTable [obs_row 1 "u "])))
  = (Raise FileNotFoundError,
     World (files (one_file "sim/DES_PHOT.FITS.gz" (Fits (PhotTable [obs_row 1 "u "]))))
       (dirs (one_file "sim/DES_PHOT.FITS.gz" (Fits (PhotTable [obs_row 1 "u "]))))
       (opened (one_file "sim/DES_PHOT.FITS.gz" (Fits (PhotTable [obs_row 1 "u "])))
          ++ ["sim/DES_PHOT.FITS.gz"])%list
       (stdout (one_file "sim/DES_PHOT.FITS.gz" (Fits (PhotTable [obs_row 1 "u "]))))) /\
  fst (convert "out" "sim/DES_PHOT.FITS.gz"
         (one_file "sim/DES_PHOT.FITS.gz" (Fits (PhotTable [obs_row 1 "u "]))))
  = Raise FileNotFoundError /\
  files (snd (convert "out" "sim/DES_PHOT.FITS.gz"
                (one_file "sim/DES_PHOT.FITS.gz" (Fits (PhotTable [obs_row 1 "u "])))))
  = files (one_file "sim/DES_PHOT.FITS.gz" (Fits (PhotTable [obs_row 1 "u "]))).
Proof.
  apply (missing_header_raises "out" "sim/DES_PHOT.FITS.gz" false
           (one_file "sim/DES_PHOT.FITS.gz" (Fits (PhotTable [obs_row 1 "u "])))
           [obs_row 1 "u "] (range_index [obs_row 1 "u "])).
  - vm_compute. reflexivity.
  - discriminate.
  - vm_compute. reflexivity.
  - vm_compute. reflexivity.
  - vm_compute. reflexivity.
Defined.



(** ** Order and origin of the returned rows *)

Lemma labels_on_rows {A B : Type} (f : A -> B) (df : frame A) :
  labels (on_rows f df) = labels df.
Proof.
  unfold labels, on_rows. rewrite List.map_map. reflexivity.
Qed.

Lemma labels_filter {A : Type} (p : nat * A -> bool) (df : frame A) :
  sublist (labels (List.filter p df)) (labels df).
Proof.
  induction df as [|r rest IH]; simpl; [constructor|].
  destruct (p r); simpl; [now apply sublist_skip|now apply sublist_cons].
Qed.

Lemma labels_with_column {A : Type} (df : frame A) :
  forall ids, sublist (labels (with_column df ids)) (labels df).
Proof.
  unfold labels, with_column.
  induction df as [|r rest IH]; intros ids; destruct ids as [|z ids]; simpl.
  - constructor.
  - constructor.
  - apply sublist_nil_l.
  - apply sublist_skip. apply IH.
Qed.

Lemma labels_range_index {A : Type} (rows : list A) :
  labels (range_index rows) = seq 0 (length rows).
Proof.
  unfold labels, range_index. generalize 0.
  induction rows as [|x rest IH]; intros a; simpl; [reflexivity|].
  now rewrite IH.
Qed.

Lemma labels_trim (df trimmed : frame raw_phot) :
  trim df = Ok trimmed -> sublist (labels trimmed) (labels df).
Proof.
  unfold trim, trim_last, trim_first, rbind.
  destruct (at_last df) as [rl|e]; [|discriminate].
  set (df1 := if is_sentinel (MJD (snd rl)) then drop_label (fst rl) df else df).
  assert (H1 : sublist (labels df1) (labels df)).
  { unfold df1. destruct (is_sentinel (MJD (snd rl))); [|reflexivity].
    apply labels_filter. }
  replace (if is_sentinel (MJD (snd rl)) then Ok (drop_label (fst rl) df) else Ok df)
    with (Ok df1) by (unfold df1; now destruct (is_sentinel (MJD (snd rl)))).
  destruct (at_pos df1 0) as [rf|e]; [|discriminate].
  destruct (is_sentinel (MJD (snd rf))); intros Heq; injection Heq as <-.
  - transitivity (labels df1); [apply labels_filter|exact H1].
  - exact H1.
Qed.

Lemma in_range_index {A : Type} (rows : list A) (l : nat) (x : A) :
  In (l, x) (range_index rows) -> rows !! l = Some x.
Proof.
  unfold range_index.
  assert (Hgen : forall a, In (l, x) (combine (seq a (length rows)) rows) ->
                           a <= l /\ rows !! (l - a) = Some x).
  { induction rows as [|y rest IH]; intros a Hin; simpl in Hin; [contradiction|].
    destruct Hin as [Heq|Hin].
    - injection Heq as <- <-. rewrite Nat.sub_diag. split; [lia|reflexivity].
    - destruct (IH (S a) Hin) as [Hle Hx]. split; [lia|].
      replace (l - a) with (S (l - S a)) by lia. exact Hx. }
  intros Hin. destruct (Hgen 0 Hin) as [_ Hx]. now rewrite Nat.sub_0_r in Hx.
Qed.

(** X12. The photometry table comes back in file order under the file
    positions as labels: its labels are a subsequence of [0 .. n-1], and
    the row under label [l] carries the timestamp, flux and flux error of
    row [l] of the file and the code of that row's band. *)
Theorem returned_rows_by_label (fname : string) (drop_separators : bool)
    (w w' : world) (hdr : DataFrame) (phot : frame Phot.row) :
  read_fits fname drop_separators w = (Ok (hdr, PhotDf phot), w') ->
  exists rows,
    files w !! fname = Some (Fits (PhotTable rows)) /\
    sublist (labels phot) (seq 0 (length rows)) /\
    forall l r,
      In (l, r) phot ->
      exists raw n,
        rows !! l = Some raw /\ passband_dict !! FLT raw = Some n /\
        Phot.mjd r = MJD raw /\ Phot.passband r = Int n /\
        Phot.flux r = FLUXCAL raw /\ Phot.flux_err r = FLUXCALERR raw.
Proof.
  intros Hread.
  destruct (read_fits_returns _ _ _ _ _ _ Hread)
    as [[t [_ [_ [_ [Ht _]]]]] | [rows [trimmed [hrows [ids Hcase]]]]].
  - destruct t; discriminate.
  - destruct Hcase as [Hfile [_ [Htrim [_ [_ [_ [Hphot _]]]]]]].
    injection Hphot as ->. exists rows. split; [exact Hfile|]. split.
    + rewrite labels_on_rows.
      transitivity (labels (tagged drop_separators trimmed ids));
        [apply labels_filter|].
      unfold tagged. rewrite labels_on_rows.
      transitivity (labels trimmed).
      * destruct drop_separators; [|apply labels_with_column].
        transitivity (labels (with_column trimmed ids));
          [apply labels_filter|apply labels_with_column].
      * rewrite <- labels_range_index. now apply labels_trim.
    + intros l r Hin.
      destruct (in_returned_rows _ _ _ _ _ Hin)
        as [z [raw [n [_ [Hraw [Hn [-> _]]]]]]].
      exists raw, n. simpl. repeat split; try assumption.
      apply in_range_index. exact (trim_rows _ _ _ Htrim Hraw).
Qed.

Lemma returned_rows_by_label_witness :
  exists rows,
    files (batch [sep_row; obs_row 1 "u "; obs_row 2 "X "; obs_row 3 "r "] [head_of 7])
      !! "sim/DES_PHOT.FITS.gz" = Some (Fits (PhotTable rows)) /\
    sublist (labels [(1, Phot.Row 7 1 (Int 0) 1 1); (3, Phot.Row 7 3 (Int 2) 1 1)])
      (seq 0 (length rows)) /\
    forall l r,
      In (l, r) [(1, Phot.Row 7 1 (Int 0) 1 1); (3, Phot.Row 7 3 (Int 2) 1 1)] ->
      exists raw n,
        rows !! l = Some raw /\ passband_dict !! FLT raw = Some n /\
        Phot.mjd r = MJD raw /\ Phot.passband r = Int n /\
        Phot.flux r = FLUXCAL raw /\ Phot.flux_err r = FLUXCALERR raw.
Proof.
  apply (returned_rows_by_label "sim/DES_PHOT.FITS.gz" false
           (batch [sep_row; obs_row 1 "u "; obs_row 2 "X "; obs_row 3 "r "] [head_of 7])
           (snd (read_fits "sim/DES_PHOT.FITS.gz" false
                   (batch [sep_row; obs_row 1 "u "; obs_row 2 "X "; obs_row 3 "r "]
                      [head_of 7])))
           (HeadDf [(0, head_row_of (astype_SNID (head_of 7)))])).
  vm_compute. reflexivity.
Defined.

(** ** Names the driver and the reader derive *)

Lemma join_plain (a b : string) :
  a <> "" -> PyStr.ends_with_slash a = false ->
  b <> "" -> PyStr.has_slash b = false ->
  PyStr.join a b = a +:+ "/" +:+ b.
Proof.
  intros Ha Hend Hb Hslash. unfold PyStr.join.
  destruct b as [|c b]; [contradiction|].
  unfold PyStr.has_slash in Hslash. simpl in Hslash.
  apply orb_false_iff in Hslash. destruct Hslash as [Hc _].
  rewrite Hc, Hend.
  destruct (String.eqb_spec a ""); [contradiction|reflexivity].
Qed.

Lemma append_nonempty_r (a b : string) : b <> "" -> a +:+ b <> "".
Proof.
  intros Hb. destruct a; [exact Hb|]. rewrite append_cons. discriminate.
Qed.

(** X13. For a compressed input [dir/<batch>_PHOT.FITS.gz] whose batch
    name has no slash and no [.FITS.gz] of its own, and an output
    directory given without a trailing slash, the driver computes the two
    different paths [output_dir/<batch>_HEAD.csv] and
    [output_dir/<batch>_PHOT.csv]. *)
Theorem csv_paths_of_compressed_batch (output_dir dir batch : string) :
  output_dir <> "" ->
  PyStr.ends_with_slash output_dir = false ->
  PyStr.has_slash batch = false ->
  PyStr.contains "PHOT.FITS.gz" batch = false ->
  PyStr.contains ".FITS.gz" batch = false ->
  csv_metadata_path output_dir (dir +:+ "/" +:+ batch +:+ "_PHOT.FITS.gz")
  = output_dir +:+ "/" +:+ batch +:+ "_HEAD.csv" /\
  csv_lcdata_path output_dir (dir +:+ "/" +:+ batch +:+ "_PHOT.FITS.gz")
  = output_dir +:+ "/" +:+ batch +:+ "_PHOT.csv" /\
  csv_metadata_path output_dir (dir +:+ "/" +:+ batch +:+ "_PHOT.FITS.gz")
  <> csv_lcdata_path output_dir (dir +:+ "/" +:+ batch +:+ "_PHOT.FITS.gz").
Proof.
  intros Hout Hend Hslash Hmeta Hlc.
  destruct (csv_paths_compressed output_dir dir batch Hslash Hmeta Hlc) as [-> ->].
  assert (Hjoin : forall suffix,
            suffix <> "" -> PyStr.has_slash suffix = false ->
            PyStr.join output_dir (batch +:+ suffix)
            = output_dir +:+ "/" +:+ batch +:+ suffix).
  { intros suffix Hne Hs. apply join_plain; try assumption.
    - now apply append_nonempty_r.
    - unfold PyStr.has_slash in *. now rewrite has_char_append, Hslash. }
  rewrite !Hjoin by (discriminate || reflexivity).
  split; [reflexivity|]. split; [reflexivity|].
  intros Heq.
  apply (String.app_inj output_dir) in Heq.
  apply (String.app_inj "/") in Heq.
  apply (String.app_inj batch) in Heq. discriminate.
Qed.

Lemma csv_paths_of_compressed_batch_witness :
  csv_metadata_path "out" ("sim" +:+ "/" +:+ "DES_v2" +:+ "_PHOT.FITS.gz")
  = "out" +:+ "/" +:+ "DES_v2" +:+ "_HEAD.csv" /\
  csv_lcdata_path "out" ("sim" +:+ "/" +:+ "DES_v2" +:+ "_PHOT.FITS.gz")
  = "out" +:+ "/" +:+ "DES_v2" +:+ "_PHOT.csv" /\
  csv_metadata_path "out" ("sim" +:+ "/" +:+ "DES_v2" +:+ "_PHOT.FITS.gz")
  <> csv_lcdata_path "out" ("sim" +:+ "/" +:+ "DES_v2" +:+ "_PHOT.FITS.gz").
Proof.
  apply (csv_paths_of_compressed_batch "out" "sim" "DES_v2");
    try discriminate; vm_compute; reflexivity.
Defined.

(** X14. For an input named by the convention, [<batch>_PHOT.<ext>] in a
    directory, with no [PHOT] in the directory, the batch name or the
    extension, the header is looked for beside it at [<batch>_HEAD.<ext>]. *)
Theorem header_path_of_conventional_name (dir batch ext : string) :
  PyStr.contains "PHOT" dir = false ->
  PyStr.contains "PHOT" batch = false ->
  PyStr.contains "PHOT" ext = false ->
  header_path (dir +:+ "/" +:+ batch +:+ "_PHOT." +:+ ext)
  = dir +:+ "/" +:+ batch +:+ "_HEAD." +:+ ext.
Proof.
  intros Hdir Hbatch Hext. unfold header_path.
  change ("/" +:+ batch +:+ "_PHOT." +:+ ext)
    with (String "/" (batch +:+ "_PHOT." +:+ ext)).
  rewrite replace_separator by (discriminate || reflexivity).
  change ("_PHOT." +:+ ext) with (String "_" ("PHOT" +:+ String "." ext)).
  rewrite replace_separator by (discriminate || reflexivity).
  rewrite replace_separator by (discriminate || reflexivity).
  assert (Hne : "PHOT" <> "") by discriminate.
  rewrite (replace_absent "PHOT" "HEAD" Hne dir Hdir),
    (replace_absent "PHOT" "HEAD" Hne batch Hbatch),
    (replace_absent "PHOT" "HEAD" Hne ext Hext).
  reflexivity.
Qed.

Lemma header_path_of_conventional_name_witness :
  header_path ("sim/v1" +:+ "/" +:+ "DES" +:+ "_PHOT." +:+ "FITS.gz")
  = "sim/v1" +:+ "/" +:+ "DES" +:+ "_HEAD." +:+ "FITS.gz".
Proof.
  apply (header_path_of_conventional_name "sim/v1" "DES" "FITS.gz");
    vm_compute; reflexivity.
Defined.

(** ** What the driver writes and what it leaves alone *)

(** [read_fits] reads: the files and the directories are the same after
    it, whatever it returns. *)
Lemma read_fits_frame (fname : string) (drop_separators : bool) (w w' : world)
    (r : result (DataFrame * DataFrame)) :
  read_fits fname drop_separators w = (r, w') ->
  files w' = files w /\ dirs w' = dirs w.
Proof.
  unfold read_fits, bind, Table_read, lift, print, ret.
  destruct (files w !! fname) as [[t| |]|];
    try (intros Heq; injection Heq as _ <-; split; reflexivity).
  destruct (empty (to_pandas t));
    [intros Heq; injection Heq as _ <-; split; reflexivity|].
  destruct (phot_frame (to_pandas t)) as [df0|e];
    [|intros Heq; injection Heq as _ <-; split; reflexivity].
  destruct (trim df0) as [trimmed|e];
    [|intros Heq; injection Heq as _ <-; split; reflexivity].
  simpl.
  destruct (files w !! PyStr.replace "PHOT" "HEAD" fname) as [[th| |]|];
    try (intros Heq; injection Heq as _ <-; split; reflexivity).
  destruct (head_frame (to_pandas th)) as [dfh|e];
    [|intros Heq; injection Heq as _ <-; split; reflexivity].
  destruct (normalise drop_separators trimmed dfh) as [out|e];
    intros Heq; injection Heq as _ <-; split; reflexivity.
Qed.

(** One iteration: the directories stay, the files stay except at the two
    computed paths, and no file disappears. *)
Lemma convert_frame (output_dir path : string) (w w' : world) (r : result unit) :
  convert output_dir path w = (r, w') ->
  dirs w' = dirs w /\
  (forall q, q <> csv_metadata_path output_dir path ->
             q <> csv_lcdata_path output_dir path ->
             files w' !! q = files w !! q) /\
  (forall q, is_Some (files w !! q) -> is_Some (files w' !! q)).
Proof.
  unfold convert, bind at 1, path_exists.
  destruct (exists_at w (csv_metadata_path output_dir path)).
  - intros Heq. injection Heq as _ <-. repeat split; auto.
  - unfold bind at 1, print.
    set (w0 := World (files w) (dirs w) (opened w) _).
    unfold bind at 1.
    destruct (read_fits path false w0) as [[tables|e] w1] eqn:Hread;
      apply read_fits_frame in Hread; destruct Hread as [Hfiles Hdirs];
      simpl in Hfiles, Hdirs.
    + destruct (empty (fst tables)).
      * intros Heq. injection Heq as _ <-.
        rewrite Hfiles, Hdirs. repeat split; auto.
      * unfold bind, to_csv. intros Heq. injection Heq as _ <-. simpl.
        rewrite Hfiles, Hdirs. split; [reflexivity|]. split.
        -- intros q Hmeta Hlc. now rewrite !lookup_insert_ne by congruence.
        -- intros q Hq.
           destruct (decide (csv_lcdata_path output_dir path = q)) as [<-|Hlc];
             [rewrite lookup_insert_eq; eauto|].
           rewrite lookup_insert_ne by exact Hlc.
           destruct (decide (csv_metadata_path output_dir path = q)) as [<-|Hmeta];
             [rewrite lookup_insert_eq; eauto|].
           now rewrite lookup_insert_ne by exact Hmeta.
    + intros Heq. injection Heq as _ <-.
      rewrite Hfiles, Hdirs. repeat split; auto.
Qed.

(** The same for a run of the loop, however it ends. *)
Lemma for_each_convert_frame (output_dir : string) (paths : list string) :
  forall (w w' : world) (r : result unit),
    for_each paths (convert output_dir) w = (r, w') ->
    dirs w' = dirs w /\
    (forall q,
        (forall p, In p paths -> q <> csv_metadata_path output_dir p /\
                                 q <> csv_lcdata_path output_dir p) ->
        files w' !! q = files w !! q) /\
    (forall q, is_Some (files w !! q) -> is_Some (files w' !! q)).
Proof.
  induction paths as [|p rest IH]; intros w w' r Hrun; simpl in Hrun.
  - injection Hrun as _ <-. repeat split; auto.
  - unfold bind in Hrun.
    destruct (convert output_dir p w) as [[[]|e] w1] eqn:Hstep;
      apply convert_frame in Hstep; destruct Hstep as [Hdirs [Hfiles Hkeep]].
    + apply IH in Hrun. destruct Hrun as [Hdirs' [Hfiles' Hkeep']].
      split; [congruence|]. split.
      * intros q Hq. rewrite Hfiles' by (intros p' Hp'; apply Hq; now right).
        destruct (Hq p (or_introl eq_refl)) as [Hmeta Hlc]. now apply Hfiles.
      * intros q Hsome. apply Hkeep', Hkeep, Hsome.
    + injection Hrun as _ <-. split; [exact Hdirs|]. split; [|exact Hkeep].
      intros q Hq. destruct (Hq p (or_introl eq_refl)) as [Hmeta Hlc].
      now apply Hfiles.
Qed.

(** X15. Whatever a run of the script does and however it ends, once the
    input directory could be listed: a file that is not the header CSV or
    the photometry CSV path of one of the listed [PHOT.FITS] entries has
    the content it had before, and no file disappears. *)
Theorem main_touches_only_outputs (fits_dir output_dir : string) (w w' : world)
    (names : list string) (r : result unit) :
  dirs w !! fits_dir = Some names ->
  main fits_dir output_dir w = (r, w') ->
  (forall q,
      (forall n, In n names -> PyStr.contains "PHOT.FITS" n = true ->
                 q <> csv_metadata_path output_dir (PyStr.join fits_dir n) /\
                 q <> csv_lcdata_path output_dir (PyStr.join fits_dir n)) ->
      files w' !! q = files w !! q) /\
  (forall q, is_Some (files w !! q) -> is_Some (files w' !! q)).
Proof.
  intros Hdir. unfold main, bind at 1. rewrite (scandir_in _ _ _ Hdir).
  unfold bind at 1, path_exists.
  set (paths := List.map path _).
  assert (Hpaths : forall p, In p paths ->
            exists n, In n names /\ PyStr.contains "PHOT.FITS" n = true /\
                      p = PyStr.join fits_dir n).
  { intros p Hp. unfold paths in Hp. apply in_map_iff in Hp.
    destruct Hp as [e [<- He]]. apply filter_In in He. destruct He as [He Hname].
    apply in_map_iff in He. destruct He as [n [<- Hn]]. now exists n. }
  assert (Hgoal : forall w0,
            files w0 = files w ->
            for_each paths (convert output_dir) w0 = (r, w') ->
            (forall q,
                (forall n, In n names -> PyStr.contains "PHOT.FITS" n = true ->
                           q <> csv_metadata_path output_dir (PyStr.join fits_dir n) /\
                           q <> csv_lcdata_path output_dir (PyStr.join fits_dir n)) ->
                files w' !! q = files w !! q) /\
            (forall q, is_Some (files w !! q) -> is_Some (files w' !! q))).
  { intros w0 Hfiles0 Hrun.
    apply for_each_convert_frame in Hrun. destruct Hrun as [_ [Hfiles Hkeep]].
    split.
    - intros q Hq. rewrite <- Hfiles0. apply Hfiles.
      intros p Hp. destruct (Hpaths p Hp) as [n [Hn [Hname ->]]]. now apply Hq.
    - intros q Hq. apply Hkeep. now rewrite Hfiles0. }
  destruct (exists_at w output_dir).
  - unfold bind at 1, ret. now apply Hgoal.
  - unfold bind at 1, makedirs. now apply Hgoal.
Qed.

Lemma main_touches_only_outputs_witness :
  (forall q,
      (forall n, In n ["DES_PHOT.FITS.gz"; "DES_HEAD.FITS.gz"] ->
                 PyStr.contains "PHOT.FITS" n = true ->
                 q <> csv_metadata_path "out" (PyStr.join "sim" n) /\
                 q <> csv_lcdata_path "out" (PyStr.join "sim" n)) ->
      files converted !! q
      = files (batch [obs_row 1 "u "; obs_row 2 "g "] [head_of 7]) !! q) /\
  (forall q,
      is_Some (files (batch [obs_row 1 "u "; obs_row 2 "g "] [head_of 7]) !! q) ->
      is_Some (files converted !! q)).
Proof.
  apply (main_touches_only_outputs "sim" "out"
           (batch [obs_row 1 "u "; obs_row 2 "g "] [head_of 7]) converted
           ["DES_PHOT.FITS.gz"; "DES_HEAD.FITS.gz"] (Ok tt)).
  - vm_compute. reflexivity.
  - vm_compute. reflexivity.
Defined.



Lemma for_each_app {A : Type} (xs ys : list A) (body : A -> M unit) (w : world) :
  for_each (xs ++ ys)%list body w
  = match for_each xs body w with
    | (Ok _, w1) => for_each ys body w1
    | (Raise e, w1) => (Raise e, w1)
    end.
Proof.
  revert w. induction xs as [|x rest IH]; intros w; simpl; [reflexivity|].
  unfold bind. destruct (body x w) as [[[]|e] w1]; [apply IH|reflexivity].
Qed.

(** X17. The loop has no handler: when the iteration on one input raises,
    the run ends there with that exception and the world that iteration
    left, and the inputs after it are not looked at. *)
Theorem driver_stops_at_first_error (output_dir : string) (before after : list string)
    (p : string) (w w1 w2 : world) (e : exn) :
  for_each before (convert output_dir) w = (Ok tt, w1) ->
  convert output_dir p w1 = (Raise e, w2) ->
  for_each (before ++ p :: after)%list (convert output_dir) w = (Raise e, w2).
Proof.
  intros Hbefore Hfail. rewrite for_each_app, Hbefore. simpl.
  unfold bind. now rewrite Hfail.
Qed.

Lemma driver_stops_at_first_error_witness :
  for_each ([] ++ "sim/DES_PHOT.FITS.gz" :: ["sim/LSST_PHOT.FITS.gz"])%list
    (convert "out")
    (one_file "sim/DES_PHOT.FITS.gz" (Fits (PhotTable [obs_row 1 "u "])))
  = (Raise FileNotFoundError,
     snd (convert "out" "sim/DES_PHOT.FITS.gz"
            (one_file "sim/DES_PHOT.FITS.gz" (Fits (PhotTable [obs_row 1 "u "]))))).
Proof.
  apply (driver_stops_at_first_error "out" [] ["sim/LSST_PHOT.FITS.gz"]
           "sim/DES_PHOT.FITS.gz"
           (one_file "sim/DES_PHOT.FITS.gz" (Fits (PhotTable [obs_row 1 "u "])))
           (one_file "sim/DES_PHOT.FITS.gz" (Fits (PhotTable [obs_row 1 "u "])))).
  - reflexivity.
  - vm_compute. reflexivity.
Defined.



(** X19. Nothing marks an empty batch as done: the iteration prints,
    reads the photometry file, and leaves files and directories as they
    were, so the header CSV is still missing and the next run reads the
    file again. *)
Theorem empty_batch_is_read_again (output_dir path : string) (w : world) :
  files w !! path = Some (Fits (PhotTable [])) ->
  exists_at w (csv_metadata_path output_dir path) = false ->
  convert output_dir path w
  = (Ok tt,
     World (files w) (dirs w) (opened w ++ [path])%list
       (stdout w ++ [PrintWriting (csv_metadata_path output_dir path); PrintEmpty])%list) /\
  exists_at (snd (convert output_dir path w)) (csv_metadata_path output_dir path)
  = false.
Proof.
  intros Hfile Hfresh.
  assert (Hrun : convert output_dir path w
                 = (Ok tt,
                    World (files w) (dirs w) (opened w ++ [path])%list
                      (stdout w ++ [PrintWriting (csv_metadata_path output_dir path);
                                    PrintEmpty])%list)).
  { unfold convert, bind, path_exists. rewrite Hfresh.
    unfold print, read_fits, bind, Table_read. simpl. rewrite Hfile. simpl.
    now rewrite <- app_assoc. }
  split; [exact Hrun|]. now rewrite Hrun.
Qed.

Lemma empty_batch_is_read_again_witness :
  convert "out" "sim/DES_PHOT.FITS.gz" (batch [] [head_of 7])
  = (Ok tt,
     World (files (batch [] [head_of 7])) (dirs (batch [] [head_of 7]))
       (opened (batch [] [head_of 7]) ++ ["sim/DES_PHOT.FITS.gz"])%list
       (stdout (batch [] [head_of 7])
          ++ [PrintWriting (csv_metadata_path "out" "sim/DES_PHOT.FITS.gz");
              PrintEmpty])%list) /\
  exists_at (snd (convert "out" "sim/DES_PHOT.FITS.gz" (batch [] [head_of 7])))
    (csv_metadata_path "out" "sim/DES_PHOT.FITS.gz")
  = false.
Proof.
  apply (empty_batch_is_read_again "out" "sim/DES_PHOT.FITS.gz" (batch [] [head_of 7]));
    vm_compute; reflexivity.
Defined.
